(** * TrustLens tutorials: the score collectors and the metrics-reporting client

    A shallow embedding of the two tutorial notebooks of the repository
    (the Opik notebook and [Trace Tutorials/DeepEval.ipynb]):

    - the evaluation loops that fill [metric_results];
    - [post_metrics_to_TRACE_Metric_API] (DeepEval) and the Opik cell that
      posts the metrics;
    - [fetch_report_result].

    The Python libraries the notebooks call ([requests], [json], the metric
    classes of [opik] and [deepeval]) are the environment: the transport is
    a function from requests to responses, a response comes with what its
    [json()] method gives, the metric objects carry their own scoring
    functions, and the JSON body of a request is written by the encoder of
    [Module Json], whose decoder reads such a body back. *)

From Stdlib Require Import ZArith Ascii String List Lia.
From stdpp Require Import base option list strings gmap pretty.

Local Open Scope Z_scope.

(** ** Python values that travel as JSON *)

(** The three constants [json.loads] reads besides numbers. *)
Inductive json_constant : Type := NaN | Infinity | NegInfinity.

(** Numbers are kept abstract: [num] stands for Python's [int] and [float]
    objects, [num_repr] for the text [json.dumps] writes for one of them
    ([float.__repr__], [int.__repr__]), [num_parse] for the conversion
    [json.loads] applies to a number token, and [num_constant] for the
    floats [float('nan')], [float('inf')] and [float('-inf')] that it
    gives for the three constants, where [num] has them. *)
Class PyNumber (num : Type) := {
  num_repr : num → list ascii;
  num_parse : list ascii → option num;
  num_constant : json_constant → option num;
}.

#[local] Unset Elimination Schemes.
Inductive json {num : Type} : Type :=
  | JNull                                   (* None  *)
  | JBool (b : bool)                        (* True, False *)
  | JNum (x : num)                          (* int, float *)
  | JStr (s : string)                       (* str *)
  | JArr (items : list json)                (* list *)
  | JObj (members : list (string * json)).  (* dict, in insertion order *)
#[local] Set Elimination Schemes.
Arguments json : clear implicits.

(** Nested induction: the hypothesis reaches the items of a list and the
    values of a dict. *)
Section json_induction.
Context {num : Type} (P : json num → Prop).
Hypothesis Hnull : P JNull.
Hypothesis Hbool : ∀ b, P (JBool b).
Hypothesis Hnum : ∀ x, P (JNum x).
Hypothesis Hstr : ∀ s, P (JStr s).
Hypothesis Harr : ∀ items, Forall P items → P (JArr items).
Hypothesis Hobj : ∀ members, Forall (λ kv, P kv.2) members → P (JObj members).

Fixpoint json_nested_ind (j : json num) : P j :=
  match j with
  | JNull => Hnull
  | JBool b => Hbool b
  | JNum x => Hnum x
  | JStr s => Hstr s
  | JArr items =>
      Harr items
        ((fix go (l : list (json num)) : Forall P l :=
            match l with
            | [] => Forall_nil_2 P
            | j' :: l' => Forall_cons_2 P j' l' (json_nested_ind j') (go l')
            end) items)
  | JObj members =>
      Hobj members
        ((fix go (l : list (string * json num)) : Forall (λ kv, P kv.2) l :=
            match l with
            | [] => Forall_nil_2 _
            | kv :: l' =>
                Forall_cons_2 (λ kv, P kv.2) kv l' (json_nested_ind kv.2) (go l')
            end) members)
  end.
End json_induction.

(** [d[k]] on a dict read from its members: a key written twice holds the
    later value. *)
Fixpoint members_get {A : Type} (k : string) (members : list (string * A)) : option A :=
  match members with
  | [] => None
  | (k', v) :: rest =>
      match members_get k rest with
      | Some v' => Some v'
      | None => if decide (k' = k) then Some v else None
      end
  end.

(** [d[k] = v] on a dict kept as its members in insertion order: a key
    that is there keeps its place and takes the new value, a new key goes
    to the end. *)
Fixpoint members_set {A : Type} (k : string) (v : A)
    (members : list (string * A)) : list (string * A) :=
  match members with
  | [] => [(k, v)]
  | (k', v') :: rest =>
      if decide (k' = k) then (k', v) :: rest
      else (k', v') :: members_set k v rest
  end.

(** [dict(pairs)]: the dict built from its pairs in order, so a key given
    twice has one entry, with the later value. *)
Definition dict_of_pairs {A : Type} (pairs : list (string * A))
    : list (string * A) :=
  foldl (λ d kv, members_set kv.1 kv.2 d) [] pairs.

Definition json_get {num} (k : string) (j : json num) : option (json num) :=
  match j with
  | JObj members => members_get k members
  | _ => None
  end.

(** The keys of a dict, in insertion order. *)
Definition json_keys {num} (j : json num) : list string :=
  match j with
  | JObj members => members.*1
  | _ => []
  end.

(** ** The JSON text: [json.dumps] and [json.loads]

    [requests.post(..., json=payload)] writes the body with [json.dumps]
    under its defaults (separators [", "] and [": "], [ensure_ascii]).
    [loads] is [json.loads] for the one who receives such a body, within
    the values of this model: a [string] holds the code points below 256
    of a Python [str], and a number is finite.  On a text whose value lies
    outside them (an escape above [u00ff], or [NaN] where [num] has no
    such float) it answers [None], as it does on a text that is not JSON.  The [response.json()]
    of the client does not go through it: what that call gives comes with
    the response. *)
Module Json.

Definition quote : ascii := "034"%char.
Definition backslash : ascii := "\"%char.

Definition hex_digit (n : N) : ascii :=
  if (n <? 10)%N then ascii_of_N (48 + n) else ascii_of_N (87 + n).

(** ESCAPE_ASCII of the encoder: the quote, the backslash and every
    character outside [' '..'~'] are escaped. *)
Definition escape_char (c : ascii) : list ascii :=
  let n := N_of_ascii c in
  if Ascii.eqb c quote then [backslash; quote]
  else if Ascii.eqb c backslash then [backslash; backslash]
  else if (n =? 8)%N then [backslash; "b"%char]
  else if (n =? 12)%N then [backslash; "f"%char]
  else if (n =? 10)%N then [backslash; "n"%char]
  else if (n =? 13)%N then [backslash; "r"%char]
  else if (n =? 9)%N then [backslash; "t"%char]
  else if ((n <? 32) || (126 <? n))%N then
    [backslash; "u"%char; "0"%char; "0"%char;
     hex_digit (n / 16); hex_digit (n mod 16)]
  else [c].

Definition emit_string (s : string) : list ascii :=
  quote :: concat (escape_char <$> list_ascii_of_string s) ++ [quote].

Definition comma_space : list ascii := [","%char; " "%char].
Definition colon_space : list ascii := [":"%char; " "%char].

(** [sep.join(parts)] *)
Fixpoint join (sep : list ascii) (parts : list (list ascii)) : list ascii :=
  match parts with
  | [] => []
  | [p] => p
  | p :: rest => p ++ sep ++ join sep rest
  end.

(** *** Lexical helpers of the decoder *)

Definition is_ws (c : ascii) : bool :=
  let n := N_of_ascii c in
  ((n =? 32) || (n =? 9) || (n =? 10) || (n =? 13))%N.

Fixpoint skip_ws (s : list ascii) : list ascii :=
  match s with
  | c :: r => if is_ws c then skip_ws r else s
  | [] => []
  end.

Fixpoint strip_prefix (p s : list ascii) : option (list ascii) :=
  match p, s with
  | [], _ => Some s
  | a :: p', b :: s' => if Ascii.eqb a b then strip_prefix p' s' else None
  | _ :: _, [] => None
  end.

Definition hex_val (c : ascii) : option N :=
  let n := N_of_ascii c in
  if ((48 <=? n) && (n <=? 57))%N then Some (n - 48)%N
  else if ((97 <=? n) && (n <=? 102))%N then Some (n - 87)%N
  else if ((65 <=? n) && (n <=? 70))%N then Some (n - 55)%N
  else None.

(** The character an escape letter stands for. *)
Definition unescape_letter (e : ascii) : option ascii :=
  if Ascii.eqb e quote then Some quote
  else if Ascii.eqb e backslash then Some backslash
  else if Ascii.eqb e "/"%char then Some "/"%char
  else if Ascii.eqb e "b"%char then Some (ascii_of_N 8)
  else if Ascii.eqb e "f"%char then Some (ascii_of_N 12)
  else if Ascii.eqb e "n"%char then Some (ascii_of_N 10)
  else if Ascii.eqb e "r"%char then Some (ascii_of_N 13)
  else if Ascii.eqb e "t"%char then Some (ascii_of_N 9)
  else None.

(** The scanner of a string, entered after the opening quote: it returns
    the characters up to the closing quote and the text after it.  A raw
    control character is refused (strict mode), and so is an escape of a
    code point that a [string] cannot hold. *)
Fixpoint parse_string_body (s : list ascii) : option (list ascii * list ascii) :=
  match s with
  | [] => None
  | c :: r =>
      if Ascii.eqb c quote then Some ([], r)
      else if Ascii.eqb c backslash then
        match r with
        | [] => None
        | e :: r1 =>
            if Ascii.eqb e "u"%char then
              match r1 with
              | h1 :: h2 :: h3 :: h4 :: r2 =>
                  a ← hex_val h1; b ← hex_val h2;
                  c' ← hex_val h3; d ← hex_val h4;
                  let code := (4096 * a + 256 * b + 16 * c' + d)%N in
                  if (code <? 256)%N then
                    '(str, rest) ← parse_string_body r2;
                    Some (ascii_of_N code :: str, rest)
                  else None
              | _ => None
              end
            else
              ch ← unescape_letter e;
              '(str, rest) ← parse_string_body r1;
              Some (ch :: str, rest)
        end
      else if (N_of_ascii c <? 32)%N then None
      else
        '(str, rest) ← parse_string_body r;
        Some (c :: str, rest)
  end.

(** The characters of a number token: digits, sign, point, exponent. *)
Definition is_num_char (c : ascii) : bool :=
  let n := N_of_ascii c in
  ((48 <=? n) && (n <=? 57) || (n =? 43) || (n =? 45) || (n =? 46)
   || (n =? 101) || (n =? 69))%N.

Fixpoint span_num (s : list ascii) : list ascii * list ascii :=
  match s with
  | c :: r =>
      if is_num_char c then let '(tok, rest) := span_num r in (c :: tok, rest)
      else ([], s)
  | [] => ([], [])
  end.

Section codec.
Context {num : Type} `{!PyNumber num}.

Fixpoint emit (j : json num) : list ascii :=
  match j with
  | JNull => list_ascii_of_string "null"
  | JBool true => list_ascii_of_string "true"
  | JBool false => list_ascii_of_string "false"
  | JNum x => num_repr x
  | JStr s => emit_string s
  | JArr items => "["%char :: join comma_space (emit <$> items) ++ ["]"%char]
  | JObj members =>
      "{"%char ::
        join comma_space
          ((λ kv : string * json num,
              emit_string kv.1 ++ colon_space ++ emit kv.2) <$> members)
        ++ ["}"%char]
  end.

Definition dumps (j : json num) : string := string_of_list_ascii (emit j).

(** The decoder reads one value and hands back the text that follows
    it.  [fuel] bounds the nesting depth and the number of items of a
    list or dict; [loads] gives it the length of the text. *)
Fixpoint parse_elements (pv : list ascii → option (json num * list ascii))
    (fuel : nat) (s : list ascii) : option (list (json num) * list ascii) :=
  match fuel with
  | O => None
  | S fuel' =>
      '(v, r) ← pv s;
      match skip_ws r with
      | c :: r' =>
          if Ascii.eqb c ","%char then
            '(vs, r'') ← parse_elements pv fuel' r'; Some (v :: vs, r'')
          else if Ascii.eqb c "]"%char then Some ([v], r')
          else None
      | [] => None
      end
  end.

Fixpoint parse_members (pv : list ascii → option (json num * list ascii))
    (fuel : nat) (s : list ascii)
    : option (list (string * json num) * list ascii) :=
  match fuel with
  | O => None
  | S fuel' =>
      match skip_ws s with
      | q :: r0 =>
          if Ascii.eqb q quote then
            '(k, r1) ← parse_string_body r0;
            match skip_ws r1 with
            | c1 :: r2 =>
                if Ascii.eqb c1 ":"%char then
                  '(v, r3) ← pv r2;
                  match skip_ws r3 with
                  | c :: r4 =>
                      if Ascii.eqb c ","%char then
                        '(kvs, r5) ← parse_members pv fuel' r4;
                        Some ((string_of_list_ascii k, v) :: kvs, r5)
                      else if Ascii.eqb c "}"%char then
                        Some ([(string_of_list_ascii k, v)], r4)
                      else None
                  | [] => None
                  end
                else None
            | [] => None
            end
          else None
      | [] => None
      end
  end.

(** A number token is the longest run of number characters; an empty
    run is no number. *)
Definition parse_number (s : list ascii) : option (json num * list ascii) :=
  let '(tok, r) := span_num s in
  match tok with
  | [] => None
  | _ :: _ => x ← num_parse tok; Some (JNum x, r)
  end.

(** [NaN], [Infinity] and [-Infinity], tried where no number token
    starts. *)
Definition parse_constant (s : list ascii) : option (json num * list ascii) :=
  match strip_prefix (list_ascii_of_string "NaN") s with
  | Some r => x ← num_constant NaN; Some (JNum x, r)
  | None =>
      match strip_prefix (list_ascii_of_string "Infinity") s with
      | Some r => x ← num_constant Infinity; Some (JNum x, r)
      | None =>
          r ← strip_prefix (list_ascii_of_string "-Infinity") s;
          x ← num_constant NegInfinity; Some (JNum x, r)
      end
  end.

Fixpoint parse_value (fuel : nat) (s : list ascii)
    : option (json num * list ascii) :=
  match fuel with
  | O => None
  | S fuel' =>
      match skip_ws s with
      | [] => None
      | c :: r =>
          if Ascii.eqb c "n"%char then
            r' ← strip_prefix (list_ascii_of_string "ull") r; Some (JNull, r')
          else if Ascii.eqb c "t"%char then
            r' ← strip_prefix (list_ascii_of_string "rue") r; Some (JBool true, r')
          else if Ascii.eqb c "f"%char then
            r' ← strip_prefix (list_ascii_of_string "alse") r; Some (JBool false, r')
          else if Ascii.eqb c quote then
            '(str, r') ← parse_string_body r;
            Some (JStr (string_of_list_ascii str), r')
          else if Ascii.eqb c "["%char then
            match skip_ws r with
            | c' :: r' =>
                if Ascii.eqb c' "]"%char then Some (JArr [], r')
                else
                  '(vs, r'') ← parse_elements (parse_value fuel') fuel' r;
                  Some (JArr vs, r'')
            | [] => None
            end
          else if Ascii.eqb c "{"%char then
            match skip_ws r with
            | c' :: r' =>
                if Ascii.eqb c' "}"%char then Some (JObj [], r')
                else
                  '(kvs, r'') ← parse_members (parse_value fuel') fuel' r;
                  Some (JObj (dict_of_pairs kvs), r'')
            | [] => None
            end
          else
            match parse_number (c :: r) with
            | Some read => Some read
            | None => parse_constant (c :: r)
            end
      end
  end.

(** [json.loads(text)], within the values of the model: one value, then
    nothing but white space. *)
Definition loads (text : string) : option (json num) :=
  let s := list_ascii_of_string text in
  '(v, r) ← parse_value (S (length s)) s;
  match skip_ws r with
  | [] => Some v
  | _ :: _ => None
  end.
End codec.

(** *** Notions used to state that the decoder inverts the encoder *)

(** The text after a value never continues a number token. *)
Definition ok_rest (rest : list ascii) : Prop :=
  match rest with
  | c :: _ => is_num_char c = false
  | [] => True
  end.

(** The first character of a value: no white space and no closing
    bracket. *)
Definition starts_value (s : list ascii) : Prop :=
  ∃ c r, s = c :: r ∧ is_ws c = false
         ∧ Ascii.eqb c "]" = false ∧ Ascii.eqb c "}" = false.

(** A value whose dicts have no key twice, as every dict of Python. *)
Fixpoint json_wf {num} (j : json num) : Prop :=
  match j with
  | JArr items => Forall id (json_wf <$> items)
  | JObj members =>
      NoDup members.*1
      ∧ Forall id ((λ kv : string * json num, json_wf kv.2) <$> members)
  | _ => True
  end.

(** Fuel that is enough to read a value back. *)
Fixpoint weight {num} (j : json num) : nat :=
  match j with
  | JArr items => S (length items + sum_list (weight <$> items))
  | JObj members =>
      S (length members + sum_list ((λ kv : string * json num, weight kv.2) <$> members))
  | _ => 1%nat
  end.
End Json.

(** What Python guarantees of the text of a finite number: it reads back as
    the same number, it is not empty and it is made of number characters
    only. *)
Class PyNumberLaws (num : Type) `{!PyNumber num} : Prop := {
  num_parse_repr : ∀ x : num, num_parse (num_repr x) = Some x;
  num_repr_chars : ∀ x : num, Forall (λ c, Json.is_num_char c = true) (num_repr x);
  num_repr_nonempty : ∀ x : num, num_repr x ≠ [];
}.


(** ** Python control flow: a call returns a value or raises *)

Inductive exn : Type :=
  | EvaluationError     (* a metric could not produce a score *)
  | ConnectionError     (* raised by [requests] when no response arrives *)
  | JSONDecodeError.    (* raised by [Response.json()] *)

Inductive outcome (A : Type) : Type :=
  | Return (a : A)
  | Raise (e : exn).
Arguments Return {A} a.
Arguments Raise {A} e.

(** ** The score collectors

    Both notebooks start from [metric_results = {}] and run [for m in
    metrics], writing [metric_results[m.__class__.__name__]].  The state of
    a loop is the dict together with the list of the metric objects whose
    scoring method has been called so far, in call order. *)

Record collector_state (num metric : Type) : Type := CollectorState {
  metric_results : gmap string num;
  calls : list metric;
}.
Arguments CollectorState {num metric}.
Arguments metric_results {num metric}.
Arguments calls {num metric}.

Definition initial {num metric} : collector_state num metric :=
  CollectorState ∅ [].

(** The call of a scoring method is noted down. *)
Definition called {num metric} (m : metric) (st : collector_state num metric)
    : collector_state num metric :=
  CollectorState (metric_results st) (calls st ++ [m]).

(** [metric_results[name] = x] *)
Definition setitem {num metric} (name : string) (x : num)
    (st : collector_state num metric) : collector_state num metric :=
  CollectorState (<[name := x]> (metric_results st)) (calls st).

Module Opik.
Section collector.
Context {num : Type}.

(** [result = m.score(...)]: opik's [ScoreResult], read through
    [result.value]. *)
Record ScoreResult : Type := { value : num }.

(** A metric object as the loop sees it: the name of its class, the
    two [isinstance] tests, and its [score] method. *)
Record metric : Type := {
  class_name : string;                 (* m.__class__.__name__ *)
  isinstance_Equals : bool;            (* isinstance(m, Equals) *)
  isinstance_Moderation : bool;        (* isinstance(m, Moderation) *)
  score : string → string → outcome ScoreResult;
                                       (* m.score(output=, reference=) *)
}.

(** [[
    metric_results = {}
    for m in metrics:
        if isinstance(m, Equals):
            result = m.score(output=output, reference=reference)
        elif isinstance(m, Moderation):
            result = m.score(output=output, reference=reference)
        else:
            continue
        metric_results[m.__class__.__name__] = result.value
    ]]
    The loop stops at the first [score] that raises. *)
Fixpoint evaluate (metrics : list metric) (output reference : string)
    (st : collector_state num metric)
    : collector_state num metric * option exn :=
  match metrics with
  | [] => (st, None)
  | m :: rest =>
      if isinstance_Equals m then
        match score m output reference with
        | Return result =>
            evaluate rest output reference
              (setitem (class_name m) (value result) (called m st))
        | Raise e => (called m st, Some e)
        end
      else if isinstance_Moderation m then
        match score m output reference with
        | Return result =>
            evaluate rest output reference
              (setitem (class_name m) (value result) (called m st))
        | Raise e => (called m st, Some e)
        end
      else evaluate rest output reference st
  end.

(** The metrics that pass one of the two [isinstance] tests. *)
Definition scored (m : metric) : bool :=
  isinstance_Equals m || isinstance_Moderation m.
End collector.
Arguments ScoreResult : clear implicits.
Arguments metric : clear implicits.
End Opik.

Module DeepEval.
Section collector.
Context {num : Type}.

Record LLMTestCase : Type := {
  input : string;
  actual_output : string;
  expected_output : string;
  context : list string;
  retrieval_context : list string;
}.

(** A metric object as the loop sees it: the name of its class and
    [measure], which leaves the score in [m.score]; [measure m tc] is
    the value found there after the call. *)
Record metric : Type := {
  class_name : string;                    (* m.__class__.__name__ *)
  measure : LLMTestCase → outcome num;    (* m.measure(tc); m.score *)
}.

(** [[
    metric_results = {}
    for m in metrics:
        m.measure(tc)
        metric_results[m.__class__.__name__] = m.score
    ]]
    The loop stops at the first [measure] that raises. *)
Fixpoint evaluate (metrics : list metric) (tc : LLMTestCase)
    (st : collector_state num metric)
    : collector_state num metric * option exn :=
  match metrics with
  | [] => (st, None)
  | m :: rest =>
      match measure m tc with
      | Return x => evaluate rest tc (setitem (class_name m) x (called m st))
      | Raise e => (called m st, Some e)
      end
  end.
End collector.
Arguments metric : clear implicits.
End DeepEval.

(** ** The HTTP exchange *)

Inductive http_method : Type := GET | POST.

(** A call of [requests.get] or [requests.post]: the URL, the [headers]
    dict and the [json=] argument. *)
Record request (num : Type) : Type := Request {
  req_method : http_method;
  req_url : string;
  req_headers : gmap string string;
  req_json : option (json num);
}.
Arguments Request {num}.
Arguments req_method {num}.
Arguments req_url {num}.
Arguments req_headers {num}.
Arguments req_json {num}.

(** The body [requests] puts on the wire for the [json=] argument. *)
Definition wire_body {num} `{!PyNumber num} (r : request num) : option string :=
  Json.dumps <$> req_json r.

(** The [Response] object of [requests], as far as the code touches it:
    [response.status_code], [response.text] and what a call of
    [response.json()] does, which is to return the decoded body or to
    raise.  Decoding is the library's business: its outcome comes with the
    response, and the client hands the value on without looking inside. *)
Record response {num : Type} : Type := Response {
  status_code : Z;
  text : string;
  decoded : outcome (json num);
}.
Arguments Response {num}.

(** What a cell does to the outside: it sends requests and prints.  A
    [print] is kept as the list of its arguments. *)
Inductive event (num : Type) : Type :=
  | Sent (r : request num)
  | Printed (args : list (json num)).
Arguments Sent {num}.
Arguments Printed {num}.

(** The remote service, as [requests] shows it to the caller. *)
Definition transport (num : Type) : Type := request num → outcome (@response num).

(** The remote that answers every request with [resp]. *)
Definition responding {num} (resp : @response num) : transport num :=
  λ _, Return resp.

(** Code that talks to the remote and prints: it reads the transport and
    extends the trace of events; an exception ends it. *)
Definition io (num A : Type) : Type :=
  transport num → list (event num) → outcome A * list (event num).

Section io.
Context {num : Type} `{!PyNumber num}.

Definition ret {A} (a : A) : io num A := λ _ tr, (Return a, tr).

Definition bind {A B} (m : io num A) (k : A → io num B) : io num B :=
  λ net tr,
    match m net tr with
    | (Return a, tr') => k a net tr'
    | (Raise e, tr') => (Raise e, tr')
    end.

(** [try: body except Exception: handler] *)
Definition try_except {A} (body handler : io num A) : io num A :=
  λ net tr,
    match body net tr with
    | (Return a, tr') => (Return a, tr')
    | (Raise _, tr') => handler net tr'
    end.

Definition print (args : list (json num)) : io num unit :=
  λ _ tr, (Return (), tr ++ [Printed args]).

Definition send (r : request num) : io num (@response num) :=
  λ net tr, (net r, tr ++ [Sent r]).

Definition requests_post (url : string) (headers : gmap string string)
    (payload : json num) : io num (@response num) :=
  send (Request POST url headers (Some payload)).

Definition requests_get (url : string) (headers : gmap string string)
    : io num (@response num) :=
  send (Request GET url headers None).

(** [response.json()] *)
Definition response_json (r : @response num) : io num (json num) :=
  λ _ tr, (decoded r, tr).

(** Running a cell against a remote, from an empty trace. *)
Definition run {A} (m : io num A) (net : transport num)
    : outcome A * list (event num) :=
  m net [].

Definition sent_requests (tr : list (event num)) : list (request num) :=
  omap (λ e, match e with Sent r => Some r | Printed _ => None end) tr.

Definition printed (tr : list (event num)) : list (list (json num)) :=
  omap (λ e, match e with Printed a => Some a | Sent _ => None end) tr.
End io.

Global Instance io_ret {num} : MRet (io num) := λ A a, ret a.
Global Instance io_bind {num} : MBind (io num) := λ A B k m, bind m k.

(** The dict [metric_results] as the value placed in the payload.  Its
    members are listed in the order of [map_to_list], not in insertion
    order: a dict is compared by its entries, whatever their order. *)
Definition json_of_results {num} (metric_results : gmap string num) : json num :=
  JObj ((λ kv : string * num, (kv.1, JNum kv.2)) <$> map_to_list metric_results).

(** ** The metrics-reporting client *)

Section client.
Context {num : Type} `{!PyNumber num}.

(** [post_metrics_to_TRACE_Metric_API] of the DeepEval notebook. *)
Definition post_metrics_to_TRACE_Metric_API
    (metric_results : gmap string num) (auth_token user_id : string)
    : io num (json num) :=
  let BASE_URL := "https://api.cognitiveview.com" in
  let url := BASE_URL +:+ "/cv/v1/metrics" in
  let headers : gmap string string :=
    <["Authorization" := auth_token]>
      (<["Content-Type" := "application/json"]>
         (<["X-User-Id" := user_id]> ∅)) in
  let payload :=
    JObj [
      ("metric_metadata", JObj [
         ("application_name", JStr "chat-application");
         ("version", JStr "1.0.0");
         ("resource_name", JStr "chat-completion");
         ("resource_id", JStr "R-756");
         ("url", JStr "https://api.example.com/chat");
         ("provider", JStr "deepeval");
         ("use_case", JStr "transportation") ]);
      ("metric_data", JObj [
         ("resource_id", JStr "res_123456");
         ("resource_name", JStr "chat-completion");
         ("deepeval", json_of_results metric_results) ]) ] in
  response ← requests_post url headers payload ;
  print [JStr ("Status Code: " +:+ pretty (status_code response))] ;;
  try_except
    (j ← response_json response ;
     print [JStr "Response JSON:"; j] ;;
     response_json response)
    (print [JStr "Response Text:"; JStr (text response)] ;;
     mret JNull).

(** The cell of the Opik notebook that posts the metrics: the same
    request written at top level, with the credentials and the payload
    as literals and no [try]. *)
Definition opik_post_cell (metric_results : gmap string num) : io num unit :=
  let BASE_URL := "https://api.cognitiveview.com" in
  let AUTH_TOKEN := "Your-Authorization-Token-Here" in
  let url := BASE_URL +:+ "/cv/v1/metrics" in
  let headers : gmap string string :=
    <["Authorization" := AUTH_TOKEN]>
      (<["Content-Type" := "application/json"]>
         (<["X-User-Id" := "C473421_T181751"]> ∅)) in
  let payload :=
    JObj [
      ("metric_metadata", JObj [
         ("application_name", JStr "chat-application");
         ("version", JStr "1.0.0");
         ("resource_name", JStr "chat-completion");
         ("resource_id", JStr "R-756");
         ("url", JStr "https://api.example.com/chat");
         ("provider", JStr "opik");
         ("use_case", JStr "transportation") ]);
      ("metric_data", JObj [
         ("resource_id", JStr "res_123456");
         ("resource_name", JStr "chat-completion");
         ("opik", json_of_results metric_results) ]) ] in
  response ← requests_post url headers payload ;
  print [JStr ("Status Code: " +:+ pretty (status_code response))] ;;
  j ← response_json response ;
  print [JStr "Response JSON:"; j].

(** [fetch_report_result], the same in both notebooks. *)
Definition fetch_report_result (report_id auth_token user_id : string)
    : io num (json num) :=
  let base_url := "https://api.cognitiveview.com" in
  let endpoint := "/cv/v1/metrics/" +:+ report_id in
  let url := base_url +:+ endpoint in
  let headers : gmap string string :=
    <["Authorization" := auth_token]>
      (<["Content-Type" := "application/json"]>
         (<["X-User-Id" := user_id]> ∅)) in
  response ← requests_get url headers ;
  if decide (status_code response = 200) then
    response_json response
  else
    print [JStr ("Failed to fetch report. Status code: "
                 +:+ pretty (status_code response))] ;;
    mret JNull.
End client.

(** Reading a decoded dict of scores back as a [metric_results] dict: the
    members are written in order, so a repeated key keeps the later value. *)
Definition as_number {num} (j : json num) : option num :=
  match j with
  | JNum x => Some x
  | _ => None
  end.

(** [for k, v in pairs: d[k] = v] *)
Definition write_all {num} (d : gmap string num) (pairs : list (string * num))
    : gmap string num :=
  foldl (λ (d : gmap string num) (kv : string * num), <[kv.1 := kv.2]> d) d pairs.

Definition results_of_json {num} (j : json num) : option (gmap string num) :=
  match j with
  | JObj members =>
      kvs ← mapM (λ kv : string * json num, x ← as_number kv.2; Some (kv.1, x)) members;
      Some (write_all ∅ kvs)
  | _ => None
  end.

(** [doc["metric_data"][provider]], read as a dict of scores. *)
Definition scores_under {num} (provider : string) (doc : json num)
    : option (gmap string num) :=
  md ← json_get "metric_data" doc;
  scores ← json_get provider md;
  results_of_json scores.

(** ** The specification's data model, in its own words

    These definitions follow the specification (its sections 3 and 4.2),
    not the notebooks; the theorems compare the notebooks with them. *)
Module Spec.
Record ReportMetadata : Type := {
  application_name : string;
  version : string;
  resource_name : string;
  resource_id : string;
  url : string;
  provider : string;
  use_case : string;
}.

Section payload.
Context {num : Type} `{!PyNumber num}.

Definition metric_metadata (R : ReportMetadata) : json num :=
  JObj [
    ("application_name", JStr (application_name R));
    ("version", JStr (version R));
    ("resource_name", JStr (resource_name R));
    ("resource_id", JStr (resource_id R));
    ("url", JStr (url R));
    ("provider", JStr (provider R));
    ("use_case", JStr (use_case R)) ].

(** MetricsPayload: [metric_metadata] and [metric_data] =
    { resource_id, resource_name, <provider>: MetricResult }. *)
Definition MetricsPayload (R : ReportMetadata) (r n : string)
    (M : gmap string num) : json num :=
  JObj [
    ("metric_metadata", metric_metadata R);
    ("metric_data", JObj [
       ("resource_id", JStr r);
       ("resource_name", JStr n);
       (provider R, json_of_results M) ]) ].

End payload.
End Spec.

(** The metadata written into the two notebooks. *)
Definition deepeval_metadata : Spec.ReportMetadata :=
  {| Spec.application_name := "chat-application";
     Spec.version := "1.0.0";
     Spec.resource_name := "chat-completion";
     Spec.resource_id := "R-756";
     Spec.url := "https://api.example.com/chat";
     Spec.provider := "deepeval";
     Spec.use_case := "transportation" |}.

Definition opik_metadata : Spec.ReportMetadata :=
  {| Spec.application_name := "chat-application";
     Spec.version := "1.0.0";
     Spec.resource_name := "chat-completion";
     Spec.resource_id := "R-756";
     Spec.url := "https://api.example.com/chat";
     Spec.provider := "opik";
     Spec.use_case := "transportation" |}.

(** ** Sample data: the numbers and metrics shown in the notebooks *)
Module Sample.
(** The scores the notebooks print (0.0, 1.0), one more score, and the
    two integers of a report ([stars], [health_index]). *)
Inductive number : Type := n0_0 | n0_5 | n1_0 | n3 | n67.

Definition repr (x : number) : string :=
  match x with
  | n0_0 => "0.0"
  | n0_5 => "0.5"
  | n1_0 => "1.0"
  | n3 => "3"
  | n67 => "67"
  end.

Definition parse (tok : list ascii) : option number :=
  let s := string_of_list_ascii tok in
  if String.eqb s "0.0" then Some n0_0
  else if String.eqb s "0.5" then Some n0_5
  else if String.eqb s "1.0" then Some n1_0
  else if String.eqb s "3" then Some n3
  else if String.eqb s "67" then Some n67
  else None.

(** None of the sample numbers is [nan] or infinite. *)
Global Instance number_PyNumber : PyNumber number :=
  {| num_repr x := list_ascii_of_string (repr x);
     num_parse := parse;
     num_constant := λ _, None |}.

Definition tc : DeepEval.LLMTestCase :=
  {| DeepEval.input := "What causes seasonal color changes in leaves?";
     DeepEval.actual_output := "Leaves change color due to reduced chlorophyll production in fall.";
     DeepEval.expected_output := "Seasonal leaf color changes are caused by the breakdown of chlorophyll.";
     DeepEval.context := ["Photosynthesis slows in autumn."];
     DeepEval.retrieval_context := ["Photosynthesis slows in autumn."] |}.

Definition deepeval_metric (name : string) (x : number) : DeepEval.metric number :=
  {| DeepEval.class_name := name; DeepEval.measure := λ _, Return x |}.

(** Two instances of one class around an instance of another, each
    with the score it returns. *)
Definition deepeval_run : list (DeepEval.metric number * number) :=
  [ (deepeval_metric "AnswerRelevancyMetric" n1_0, n1_0);
    (deepeval_metric "HallucinationMetric" n0_0, n0_0);
    (deepeval_metric "AnswerRelevancyMetric" n0_5, n0_5) ].

Definition deepeval_metrics : list (DeepEval.metric number) := deepeval_run.*1.

Definition Equals (x : number) : Opik.metric number :=
  {| Opik.class_name := "Equals";
     Opik.isinstance_Equals := true;
     Opik.isinstance_Moderation := false;
     Opik.score := λ _ _, Return {| Opik.value := x |} |}.

Definition Moderation (x : number) : Opik.metric number :=
  {| Opik.class_name := "Moderation";
     Opik.isinstance_Equals := false;
     Opik.isinstance_Moderation := true;
     Opik.score := λ _ _, Return {| Opik.value := x |} |}.

(** [GEval] is imported by the Opik notebook; it is neither an [Equals]
    nor a [Moderation]. *)
Definition GEval (x : number) : Opik.metric number :=
  {| Opik.class_name := "GEval";
     Opik.isinstance_Equals := false;
     Opik.isinstance_Moderation := false;
     Opik.score := λ _ _, Return {| Opik.value := x |} |}.

Definition opik_metrics : list (Opik.metric number) :=
  [ Equals n0_0; GEval n0_5; Moderation n0_0; Equals n1_0 ].

(** The metrics of [opik_metrics] that the loop scores, with their
    scores. *)
Definition opik_run : list (Opik.metric number * number) :=
  [ (Equals n0_0, n0_0); (Moderation n0_0, n0_0); (Equals n1_0, n1_0) ].

(** The metadata of the specification's first scenario. *)
Definition scenario1_metadata : Spec.ReportMetadata := opik_metadata.

(** A caller's metadata that differs from the notebook's. *)
Definition other_metadata : Spec.ReportMetadata :=
  {| Spec.application_name := "search-application";
     Spec.version := "2.0.0";
     Spec.resource_name := "search-completion";
     Spec.resource_id := "R-1";
     Spec.url := "https://api.example.com/search";
     Spec.provider := "deepeval";
     Spec.use_case := "retail" |}.

Definition deepeval_results : gmap string number :=
  <["AnswerRelevancyMetric" := n1_0]> (<["HallucinationMetric" := n0_0]> ∅).

Definition opik_results : gmap string number :=
  <["Equals" := n0_0]> (<["Moderation" := n0_0]> ∅).

(** The report of the specification's fourth scenario. *)
Definition report : json number :=
  JObj [("health_index", JNum n67); ("stars", JNum n3)].

Definition ok_response : @response number :=
  {| status_code := 200; text := Json.dumps report; decoded := Return report |}.

Definition not_found_response : @response number :=
  {| status_code := 404; text := "Not Found";
     decoded := Raise JSONDecodeError |}.

End Sample.

(** ** Notions used to state the properties of the collectors *)

(** What the two loops leave behind for the scored metrics [mxs], each
    paired with the score its call returned. *)
Definition collected {num metric} (name : metric → string)
    (mxs : list (metric * num)) (st : collector_state num metric)
    : collector_state num metric :=
  CollectorState
    (write_all (metric_results st) ((λ mx : metric * num, (name mx.1, mx.2)) <$> mxs))
    (calls st ++ mxs.*1).

(** Every [measure] of the run returns: [mxs] pairs each metric with the
    score it leaves in [m.score]. *)
Definition deepeval_returns {num} (tc : DeepEval.LLMTestCase)
    (mxs : list (DeepEval.metric num * num)) : Prop :=
  Forall (λ mx : DeepEval.metric num * num,
            DeepEval.measure mx.1 tc = Return mx.2) mxs.

(** Every [score] of the run returns: [mxs] pairs each scored metric with
    the [value] of its result. *)
Definition opik_returns {num} (output reference : string)
    (mxs : list (Opik.metric num * num)) : Prop :=
  Forall (λ mx : Opik.metric num * num,
            Opik.score mx.1 output reference = Return {| Opik.value := mx.2 |}) mxs.

(** No metric scored after position [j] has the class name [k]. *)
Definition last_of_its_name {num metric} (name : metric → string)
    (mxs : list (metric * num)) (j : nat) (k : string) : Prop :=
  ∀ (j' : nat) m x, (j < j')%nat → mxs !! j' = Some (m, x) → name m ≠ k.

(** Last write wins: of two scored metrics with one name the dict holds
    the score of the later one, and a name scored once holds that score. *)
Definition last_write_wins {num metric} (name : metric → string)
    (mxs : list (metric * num)) (d : gmap string num) : Prop :=
  (∀ (i j : nat) a xa b xb,
      (i < j)%nat → mxs !! i = Some (a, xa) → mxs !! j = Some (b, xb) →
      name a = name b → last_of_its_name name mxs j (name b) →
      d !! name b = Some xb)
  ∧ (∀ (i : nat) m x,
      mxs !! i = Some (m, x) →
      (∀ (i' : nat) m' x', i' ≠ i → mxs !! i' = Some (m', x') → name m' ≠ name m) →
      d !! name m = Some x).

(** The keys are the class names of the scored metrics, and two scored
    instances of one class share a key. *)
Definition keyed_by_class_name {num metric} (name : metric → string)
    (mxs : list (metric * num)) (d : gmap string num) : Prop :=
  dom d = list_to_set (name <$> mxs.*1)
  ∧ (∀ (i j : nat) a xa b xb,
      i ≠ j → mxs !! i = Some (a, xa) → mxs !! j = Some (b, xb) →
      name a = name b →
      (size d < length mxs)%nat ∧ name a ∈ dom d).

(** ** The requests of the client, named *)

(** The [headers] dict that the three pieces of code build. *)
Definition api_headers (auth_token user_id : string) : gmap string string :=
  <["Authorization" := auth_token]>
    (<["Content-Type" := "application/json"]>
       (<["X-User-Id" := user_id]> ∅)).

(** The POST that carries the payload of the specification for the
    metadata [R], with the resource id and name of the notebooks. *)
Definition metrics_post {num} (R : Spec.ReportMetadata) (M : gmap string num)
    (auth_token user_id : string) : request num :=
  Request POST "https://api.cognitiveview.com/cv/v1/metrics"
    (api_headers auth_token user_id)
    (Some (Spec.MetricsPayload R "res_123456" "chat-completion" M)).

(** The GET of [fetch_report_result]. *)
Definition report_get {num} (report_id auth_token user_id : string) : request num :=
  Request GET ("https://api.cognitiveview.com/cv/v1/metrics/" +:+ report_id)
    (api_headers auth_token user_id) None.

(** The lines printed around a response. *)
Definition status_line {num} (resp : @response num) : list (json num) :=
  [JStr ("Status Code: " +:+ pretty (status_code resp))].

Definition failed_line {num} (resp : @response num) : list (json num) :=
  [JStr ("Failed to fetch report. Status code: " +:+ pretty (status_code resp))].

(** What a receiver reads from a request: the body on the wire is decoded,
    the provider is looked up in the document's own [metric_metadata], and
    [metric_data[provider]] is read as a dict of scores. *)
Definition as_string {num} (j : json num) : option string :=
  match j with
  | JStr s => Some s
  | _ => None
  end.

Definition metadata_provider {num} (doc : json num) : option string :=
  md ← json_get "metric_metadata" doc;
  p ← json_get "provider" md;
  as_string p.

Definition received_scores {num} `{!PyNumber num} (r : request num)
    : option (gmap string num) :=
  body ← wire_body r;
  doc ← (Json.loads body : option (json num));
  provider ← metadata_provider doc;
  scores_under provider doc.

(** The same reading, under a provider chosen by the reader. *)
Definition received_scores_under {num} `{!PyNumber num} (provider : string)
    (r : request num) : option (gmap string num) :=
  body ← wire_body r;
  doc ← (Json.loads body : option (json num));
  scores_under provider doc.
(** ** The notebooks, cell after cell

    The code cells of a notebook run from top to bottom as one script: an
    exception ends the run.  The metric objects and the texts they score
    are parameters; the cells that install packages and set
    [OPENAI_API_KEY] touch nothing that is modelled here. *)

(** A collector loop as a cell: its exception ends the script, otherwise
    the script goes on with the dict [metric_results]. *)
Definition loop_cell {num metric} (r : collector_state num metric * option exn)
    : io num (gmap string num) :=
  λ _ tr,
    match r.2 with
    | None => (Return (metric_results r.1), tr)
    | Some e => (Raise e, tr)
    end.

Section notebooks.
Context {num : Type} `{!PyNumber num}.

(** The DeepEval notebook: the loop, [print(metric_results)], the example
    call of [post_metrics_to_TRACE_Metric_API] and the example call of
    [fetch_report_result] followed by [print(report)]. *)
Definition deepeval_notebook (metrics : list (DeepEval.metric num))
    (tc : DeepEval.LLMTestCase) : io num unit :=
  metric_results ← loop_cell (DeepEval.evaluate metrics tc initial) ;
  print [json_of_results metric_results] ;;
  let AUTH_TOKEN := "Your-Authorization-Token-Here" in
  let user_id := "user_id" in
  post_metrics_to_TRACE_Metric_API metric_results AUTH_TOKEN user_id ;;
  let AUTH_TOKEN := "Your-Authorization-Token-Here" in
  report ← fetch_report_result "report_id" AUTH_TOKEN "user_id" ;
  print [report].

(** The Opik notebook: the loop, [print("Metric Results:", metric_results)],
    the cell that posts, and the example call of [fetch_report_result]
    followed by [print(report)]. *)
Definition opik_notebook (metrics : list (Opik.metric num))
    (output reference : string) : io num unit :=
  metric_results ← loop_cell (Opik.evaluate metrics output reference initial) ;
  print [JStr "Metric Results:"; json_of_results metric_results] ;;
  opik_post_cell metric_results ;;
  let AUTH_TOKEN := "Your-Authorization-Token-Here" in
  report ← fetch_report_result "report_id" AUTH_TOKEN "user_id" ;
  print [report].
End notebooks.

(** The remote that is down: every request raises. *)
Definition unreachable {num} (e : exn) : transport num := λ _, Raise e.

Module Faults.
(** A metric whose [measure] fails, as a contextual metric does on a test
    case without [retrieval_context]. *)
Definition failing_deepeval_metric (name : string) : DeepEval.metric Sample.number :=
  {| DeepEval.class_name := name; DeepEval.measure := λ _, Raise EvaluationError |}.

Definition failing_Moderation : Opik.metric Sample.number :=
  {| Opik.class_name := "Moderation";
     Opik.isinstance_Equals := false;
     Opik.isinstance_Moderation := true;
     Opik.score := λ _ _, Raise EvaluationError |}.

(** A metric that is neither an [Equals] nor a [Moderation] and would
    fail if it were scored. *)
Definition failing_GEval : Opik.metric Sample.number :=
  {| Opik.class_name := "GEval";
     Opik.isinstance_Equals := false;
     Opik.isinstance_Moderation := false;
     Opik.score := λ _ _, Raise EvaluationError |}.

(** A 200 response whose body is not JSON, and one whose body is [null]. *)
Definition html_response : @response Sample.number :=
  {| status_code := 200; text := "<html>Bad Gateway</html>";
     decoded := Raise JSONDecodeError |}.

Definition null_response : @response Sample.number :=
  {| status_code := 200; text := "null"; decoded := Return JNull |}.
End Faults.

(** ** The decoder reads back what the encoder writes *)

Module JsonFacts.
Import Json.

Ltac each_char c :=
  destruct c as [[] [] [] [] [] [] [] []].

Lemma parse_string_body_escape c tail :
  parse_string_body (escape_char c ++ tail)
  = '(str, rest) ← parse_string_body tail; Some (c :: str, rest).
Proof. each_char c; reflexivity. Qed.

Lemma parse_string_body_escaped (l : list ascii) rest :
  parse_string_body (concat (escape_char <$> l) ++ quote :: rest) = Some (l, rest).
Proof.
  induction l as [|c l IH]; [reflexivity|].
  rewrite fmap_cons, concat_cons, <- app_assoc, parse_string_body_escape, IH.
  reflexivity.
Qed.

Lemma parse_emit_string s rest :
  ∃ body, emit_string s ++ rest = quote :: body
          ∧ parse_string_body body = Some (list_ascii_of_string s, rest).
Proof.
  exists (concat (escape_char <$> list_ascii_of_string s) ++ quote :: rest).
  split; [|apply parse_string_body_escaped].
  unfold emit_string. simpl. by rewrite <- app_assoc.
Qed.

Lemma span_num_token tok rest :
  Forall (λ c, is_num_char c = true) tok → ok_rest rest →
  span_num (tok ++ rest) = (tok, rest).
Proof.
  intros Htok Hrest. induction Htok as [|c tok Hc _ IH]; cbn [app span_num].
  - destruct rest as [|c r]; [reflexivity|].
    cbn [span_num]. unfold ok_rest in Hrest. by rewrite Hrest.
  - by rewrite Hc, IH.
Qed.

(** A number character opens none of the other values and is no white
    space. *)
Lemma num_char_dispatch c :
  is_num_char c = true →
  is_ws c = false ∧ Ascii.eqb c "n" = false ∧ Ascii.eqb c "t" = false
  ∧ Ascii.eqb c "f" = false ∧ Ascii.eqb c quote = false
  ∧ Ascii.eqb c "[" = false ∧ Ascii.eqb c "{" = false
  ∧ Ascii.eqb c "]" = false ∧ Ascii.eqb c "}" = false.
Proof. each_char c; intros H; try discriminate H; repeat split; reflexivity. Qed.

Lemma sum_list_elem (l : list nat) (n : nat) : n ∈ l → (n ≤ sum_list l)%nat.
Proof.
  induction 1 as [n l|n m l _ IH]; simpl; lia.
Qed.

Lemma length_join_ge sep (parts : list (list ascii)) :
  (sum_list (length <$> parts) ≤ length (join sep parts))%nat.
Proof.
  induction parts as [|p [|q parts] IH]; simpl in *;
    rewrite ?length_app; simpl in *; rewrite ?length_app in *; lia.
Qed.

Lemma length_join_sep (parts : list (list ascii)) :
  (sum_list (length <$> parts) + 2 * length parts
   ≤ 2 + length (join comma_space parts))%nat.
Proof.
  induction parts as [|p [|q parts] IH]; simpl in *; [lia..|].
  rewrite !length_app in *. simpl in *. lia.
Qed.

Lemma sum_list_le {A} (f g : A → nat) (l : list A) :
  Forall (λ a, (f a ≤ g a)%nat) l → (sum_list (f <$> l) ≤ sum_list (g <$> l))%nat.
Proof. induction 1; csimpl; lia. Qed.

Lemma match_starts_value {T} (s : list ascii) (close : ascii)
    (a : list ascii → option T) (b : option T) :
  starts_value s → close = "]"%char ∨ close = "}"%char →
  match skip_ws s with
  | c' :: r' => if Ascii.eqb c' close then a r' else b
  | [] => None
  end = b.
Proof.
  intros (c & r & -> & Hws & H1 & H2) Hclose. cbn [skip_ws]. rewrite Hws.
  by destruct Hclose as [-> | ->]; [rewrite H1|rewrite H2].
Qed.

Section roundtrip.
Context {num : Type} `{!PyNumber num} `{!PyNumberLaws num}.

Lemma emit_starts_value (j : json num) rest : starts_value (emit j ++ rest).
Proof.
  destruct j as [|[]|x|s|items|members]; simpl;
    try (eexists _, _; split; [reflexivity|]; repeat split; reflexivity).
  pose proof (num_repr_chars x) as Hchars.
  pose proof (num_repr_nonempty x) as Hne.
  destruct (num_repr x) as [|c tok]; [done|].
  apply Forall_cons in Hchars as [Hc _].
  apply num_char_dispatch in Hc. eexists c, _; split; [reflexivity|].
  tauto.
Qed.

Lemma join_cons_ne sep (p : list ascii) parts :
  parts ≠ [] → join sep (p :: parts) = p ++ sep ++ join sep parts.
Proof. by destruct parts. Qed.

Section items.
Variable pv : list ascii → option (json num * list ascii).
Hypothesis pv_space : ∀ s, pv (" "%char :: s) = pv s.

Lemma parse_elements_space fuel s :
  parse_elements pv fuel (" "%char :: s) = parse_elements pv fuel s.
Proof. destruct fuel; [reflexivity|]. cbn [parse_elements]. by rewrite pv_space. Qed.

Lemma parse_elements_emit (items : list (json num)) fuel rest :
  Forall (λ item, ∀ r, ok_rest r → pv (emit item ++ r) = Some (item, r)) items →
  items ≠ [] → (length items ≤ fuel)%nat →
  parse_elements pv fuel (join comma_space (emit <$> items) ++ "]"%char :: rest)
  = Some (items, rest).
Proof.
  intros Hall. revert fuel.
  induction Hall as [|a items Ha Hall IH]; intros fuel Hne Hfuel; [done|].
  destruct fuel as [|fuel]; [simpl in Hfuel; lia|].
  destruct items as [|b items].
  - cbn [fmap list_fmap join parse_elements].
    rewrite Ha by reflexivity. reflexivity.
  - rewrite fmap_cons, join_cons_ne by done.
    rewrite <- !app_assoc. cbn [parse_elements].
    rewrite Ha by reflexivity.
    cbn [comma_space app mbind option_bind skip_ws].
    change (is_ws ","%char) with false. cbv iota.
    change (Ascii.eqb "," ",")%char with true. cbv iota.
    rewrite parse_elements_space, IH; [reflexivity|done|simpl in *; lia].
Qed.

Lemma parse_members_emit (members : list (string * json num)) fuel rest :
  Forall (λ kv : string * json num,
            ∀ r, ok_rest r → pv (emit kv.2 ++ r) = Some (kv.2, r)) members →
  members ≠ [] → (length members ≤ fuel)%nat →
  parse_members pv fuel
    (join comma_space
       ((λ kv : string * json num,
           emit_string kv.1 ++ colon_space ++ emit kv.2) <$> members)
     ++ "}"%char :: rest)
  = Some (members, rest).
Proof.
  intros Hall. revert fuel.
  induction Hall as [|[k v] members Ha Hall IH]; intros fuel Hne Hfuel; [done|].
  destruct fuel as [|fuel]; [simpl in Hfuel; lia|].
  assert (Hstep : ∀ r,
    ok_rest r →
    parse_members pv (S fuel) ((emit_string k ++ colon_space ++ emit v) ++ r)
    = '(v', r3) ← Some (v, r);
      match skip_ws r3 with
      | c :: r4 =>
          if Ascii.eqb c ","%char then
            '(kvs, r5) ← parse_members pv fuel r4;
            Some ((k, v') :: kvs, r5)
          else if Ascii.eqb c "}"%char then Some ([(k, v')], r4)
          else None
      | [] => None
      end).
  { intros r Hr. rewrite <- !app_assoc.
    destruct (parse_emit_string k (colon_space ++ emit v ++ r)) as (body & -> & Hbody).
    cbn [parse_members skip_ws].
    change (is_ws quote) with false. cbv iota.
    change (Ascii.eqb quote quote) with true. cbv iota.
    rewrite Hbody.
    cbn [comma_space colon_space app mbind option_bind skip_ws].
    change (is_ws ":"%char) with false. cbv iota.
    change (Ascii.eqb ":" ":")%char with true. cbv iota.
    rewrite pv_space. simpl in Ha. rewrite Ha by done.
    cbn [mbind option_bind]. by rewrite string_of_list_ascii_of_string. }
  destruct members as [|b members].
  - cbn [fmap list_fmap join fst snd].
    rewrite Hstep by reflexivity. reflexivity.
  - rewrite fmap_cons, join_cons_ne by done.
    cbn [fst snd]. rewrite <- (app_assoc _ (comma_space ++ _)).
    rewrite Hstep by reflexivity.
    rewrite <- app_assoc.
    cbn [comma_space app mbind option_bind skip_ws].
    change (is_ws ","%char) with false. cbv iota.
    change (Ascii.eqb "," ",")%char with true. cbv iota.
    assert (Hsp : ∀ s, parse_members pv fuel (" "%char :: s) = parse_members pv fuel s).
    { intros s. destruct fuel; reflexivity. }
    rewrite Hsp, IH; [reflexivity|done|simpl in *; lia].
Qed.
End items.

Lemma parse_value_space fuel s :
  parse_value (num:=num) fuel (" "%char :: s) = parse_value fuel s.
Proof. destruct fuel; reflexivity. Qed.

Lemma join_starts_value (p : list ascii) parts tail :
  (∀ r, starts_value (p ++ r)) →
  starts_value (join comma_space (p :: parts) ++ tail).
Proof.
  intros Hp. destruct parts as [|q parts]; [apply Hp|].
  rewrite join_cons_ne by done. rewrite <- app_assoc. apply Hp.
Qed.

(** With enough fuel the decoder returns the value the encoder wrote
    and stops right after its text. *)
Lemma dict_of_pairs_distinct {A} (pairs : list (string * A)) :
  NoDup pairs.*1 → dict_of_pairs pairs = pairs.
Proof.
  unfold dict_of_pairs.
  assert (Hset : ∀ (k : string) (v : A) acc,
            k ∉ acc.*1 → members_set k v acc = acc ++ [(k, v)]).
  { intros k v acc. induction acc as [|[k' v'] acc IH]; [done|].
    cbn [members_set fmap list_fmap fst app]. rewrite not_elem_of_cons.
    intros [Hne Hnotin]. rewrite decide_False by done. by rewrite IH. }
  assert (Hgo : ∀ acc : list (string * A),
            NoDup (acc ++ pairs).*1 →
            foldl (λ d kv, members_set kv.1 kv.2 d) acc pairs = acc ++ pairs).
  { induction pairs as [|[k v] pairs IH]; intros acc Hnd;
      [by rewrite app_nil_r|].
    cbn [foldl fst snd]. rewrite Hset.
    - rewrite IH; rewrite <- app_assoc; [done|exact Hnd].
    - rewrite fmap_app, fmap_cons in Hnd. cbn [fst] in Hnd.
      apply NoDup_app in Hnd as (_ & Hdisj & _).
      intros Hin. apply (Hdisj k Hin). left. }
  intros Hnd. by apply (Hgo []).
Qed.

Lemma parse_value_emit (j : json num) :
  ∀ fuel rest, (weight j ≤ fuel)%nat → ok_rest rest → json_wf j →
    parse_value fuel (emit j ++ rest) = Some (j, rest).
Proof.
  induction j as [|b|x|s|items IH|members IH] using json_nested_ind;
    intros fuel rest Hfuel Hrest Hwf;
    (destruct fuel as [|fuel]; [simpl in Hfuel; lia|]).
  - reflexivity.
  - destruct b; reflexivity.
  - pose proof (num_repr_chars x) as Hchars.
    pose proof (num_repr_nonempty x) as Hne.
    pose proof (num_parse_repr x) as Hparse.
    pose proof (span_num_token (num_repr x) rest Hchars Hrest) as Hspan.
    cbn [emit]. destruct (num_repr x) as [|c tok]; [done|].
    pose proof (Forall_inv Hchars) as Hc. cbv beta in Hc.
    destruct (num_char_dispatch c Hc) as (Hws & Hn & Ht & Hf & Hq & Hl & Hb & _).
    cbn [app parse_value skip_ws]. rewrite Hws, Hn, Ht, Hf, Hq, Hl, Hb.
    unfold parse_number. change (c :: tok ++ rest) with ((c :: tok) ++ rest).
    rewrite Hspan, Hparse. reflexivity.
  - cbn [emit].
    destruct (parse_emit_string s rest) as (body & -> & Hbody).
    cbn [parse_value skip_ws]. change (is_ws quote) with false. cbv iota.
    change (Ascii.eqb quote "n") with false.
    change (Ascii.eqb quote "t") with false.
    change (Ascii.eqb quote "f") with false.
    change (Ascii.eqb quote quote) with true. cbv iota.
    rewrite Hbody. cbn [mbind option_bind].
    by rewrite string_of_list_ascii_of_string.
  - cbn [emit app]. rewrite <- app_assoc. cbn [app].
    destruct items as [|a items]; [reflexivity|].
    cbn [parse_value skip_ws]. change (is_ws "["%char) with false. cbv iota.
    change (Ascii.eqb "[" "n")%char with false.
    change (Ascii.eqb "[" "t")%char with false.
    change (Ascii.eqb "[" "f")%char with false.
    change (Ascii.eqb "["%char quote) with false.
    change (Ascii.eqb "[" "[")%char with true. cbv iota.
    rewrite match_starts_value;
      [|rewrite fmap_cons; apply join_starts_value, emit_starts_value|by left].
    cbn [weight] in Hfuel.
    rewrite (parse_elements_emit _ (parse_value_space fuel));
      [reflexivity| |done|lia].
    cbn [json_wf] in Hwf. rewrite Forall_fmap, Forall_forall in Hwf.
    rewrite Forall_forall in IH. apply Forall_forall. intros item Hin r Hr.
    apply (IH item Hin); [|done|exact (Hwf item Hin)].
    assert (weight item ≤ sum_list (weight <$> (a :: items)))%nat
      by (apply sum_list_elem, list_elem_of_fmap; eauto).
    lia.
  - cbn [emit app]. rewrite <- app_assoc. cbn [app].
    destruct members as [|[k v] members]; [reflexivity|].
    cbn [parse_value skip_ws]. change (is_ws "{"%char) with false. cbv iota.
    change (Ascii.eqb "{" "n")%char with false.
    change (Ascii.eqb "{" "t")%char with false.
    change (Ascii.eqb "{" "f")%char with false.
    change (Ascii.eqb "{"%char quote) with false.
    change (Ascii.eqb "{" "[")%char with false.
    change (Ascii.eqb "{" "{")%char with true. cbv iota.
    rewrite match_starts_value; [| |by right].
    2:{ rewrite fmap_cons. apply join_starts_value. intros r.
        cbn [fst]. eexists quote, _. split; [reflexivity|].
        repeat split; reflexivity. }
    cbn [weight] in Hfuel. cbn [json_wf] in Hwf. destruct Hwf as [Hnd Hwf].
    rewrite Forall_fmap, Forall_forall in Hwf.
    rewrite (parse_members_emit _ (parse_value_space fuel));
      [cbn [mbind option_bind]; by rewrite dict_of_pairs_distinct| |done|lia].
    rewrite Forall_forall in IH. apply Forall_forall. intros kv Hin r Hr.
    apply (IH kv Hin); [|done|exact (Hwf kv Hin)].
    assert (weight kv.2 ≤ sum_list ((λ kv : string * json num, weight kv.2)
                                      <$> ((k, v) :: members)))%nat
      by (apply sum_list_elem, (list_elem_of_fmap_2 (λ kv : string * json num, weight kv.2)), Hin).
    lia.
Qed.

Lemma weight_le_length (j : json num) : (weight j ≤ length (emit j))%nat.
Proof.
  induction j as [|b|x|s|items IH|members IH] using json_nested_ind.
  - simpl. lia.
  - destruct b; simpl; lia.
  - pose proof (num_repr_nonempty x). cbn [weight emit].
    destruct (num_repr x); [done|simpl; lia].
  - unfold emit, emit_string. cbn [weight length]. lia.
  - cbn [weight emit length]. rewrite length_app. cbn [length].
    pose proof (length_join_sep (emit <$> items)) as Hlen.
    pose proof (sum_list_le weight (λ j, length (emit j)) items IH) as Hsum.
    rewrite <- list_fmap_compose in Hlen. unfold compose in Hlen.
    rewrite length_fmap in Hlen.
    destruct items; [simpl; lia|simpl length in *; lia].
  - cbn [weight emit length]. rewrite length_app. cbn [length].
    pose proof (length_join_sep
      ((λ kv : string * json num,
          emit_string kv.1 ++ colon_space ++ emit kv.2) <$> members)) as Hlen.
    assert (Hsum : (sum_list ((λ kv : string * json num, weight kv.2) <$> members)
                    ≤ sum_list ((λ kv : string * json num,
                         length (emit_string kv.1 ++ colon_space ++ emit kv.2))
                         <$> members))%nat).
    { apply sum_list_le. eapply Forall_impl; [exact IH|].
      intros kv Hkv. cbv beta in *. rewrite !length_app. lia. }
    rewrite <- list_fmap_compose in Hlen. unfold compose in Hlen.
    rewrite length_fmap in Hlen.
    destruct members; [simpl; lia|simpl length in *; lia].
Qed.

(** [json.loads(json.dumps(j)) == j], for a value whose dicts have no
    key twice. *)
Lemma loads_dumps (j : json num) : json_wf j → loads (dumps j) = Some j.
Proof.
  intros Hwf. unfold loads, dumps. rewrite list_ascii_of_string_of_list_ascii.
  pose proof (parse_value_emit j (S (length (emit j))) []) as H.
  rewrite app_nil_r in H. rewrite H; [reflexivity| |exact I|exact Hwf].
  pose proof (weight_le_length j). lia.
Qed.
End roundtrip.
End JsonFacts.

(** ** Facts about dicts written pair by pair *)

Section dict_facts.
Context {A : Type}.
Implicit Types (l : list (string * A)) (k : string).

Lemma members_get_None l k :
  (∀ j k' x', l !! j = Some (k', x') → k' ≠ k) → members_get k l = None.
Proof.
  induction l as [|[k0 v0] l IH]; intros Hno; [reflexivity|].
  cbn [members_get]. rewrite IH.
  - case_decide as Hk; [|reflexivity]. by destruct (Hno 0%nat k0 v0).
  - intros j k' x' Hj. by apply (Hno (S j) k' x').
Qed.

(** The last pair written under a key is the one read. *)
Lemma members_get_last l (j : nat) k x :
  l !! j = Some (k, x) →
  (∀ j' k' x', (j < j')%nat → l !! j' = Some (k', x') → k' ≠ k) →
  members_get k l = Some x.
Proof.
  revert j. induction l as [|[k0 v0] l IH]; intros j Hj Hlater; [done|].
  cbn [members_get]. destruct j as [|j].
  - injection Hj as -> ->. rewrite members_get_None.
    + by rewrite decide_True.
    + intros j k' x' Hj'. apply (Hlater (S j) k' x'); [lia|done].
  - erewrite IH; [reflexivity|exact Hj|].
    intros j' k' x' Hlt Hj'. apply (Hlater (S j') k' x'); [lia|done].
Qed.

Lemma members_get_elem l k x : members_get k l = Some x → (k, x) ∈ l.
Proof.
  induction l as [|[k0 v0] l IH]; [done|]. cbn [members_get].
  destruct (members_get k l) as [v|].
  - intros [= ->]. right. by apply IH.
  - case_decide as Hk; [|done]. intros [= ->]. subst. left.
Qed.

Lemma members_get_NoDup l k x :
  NoDup l.*1 → (k, x) ∈ l → members_get k l = Some x.
Proof.
  intros Hnd Hin. apply list_elem_of_lookup in Hin as [j Hj].
  apply (members_get_last l j); [done|].
  intros j' k' x' Hlt Hj' ->.
  assert (j = j'); [|lia].
  apply (NoDup_lookup _ j j' k Hnd); by rewrite list_lookup_fmap, ?Hj, ?Hj'.
Qed.
End dict_facts.

Section write_all_facts.
Context {num : Type}.
Implicit Types (d : gmap string num) (l : list (string * num)).

Lemma write_all_lookup d l k :
  write_all d l !! k
  = match members_get k l with Some x => Some x | None => d !! k end.
Proof.
  revert d. induction l as [|[k0 v0] l IH]; intros d; [reflexivity|].
  unfold write_all in *. cbn [foldl members_get fst snd]. rewrite IH.
  destruct (members_get k l); [reflexivity|].
  case_decide as Hk.
  - subst. apply lookup_insert_eq.
  - by apply lookup_insert_ne.
Qed.

Lemma write_all_dom d l :
  dom (write_all d l) = list_to_set l.*1 ∪ dom d.
Proof.
  revert d. induction l as [|[k0 v0] l IH]; intros d.
  - cbn. by rewrite (left_id_L ∅ (∪)).
  - unfold write_all in *. cbn [foldl fst snd]. rewrite IH, dom_insert_L.
    rewrite fmap_cons. cbn [fst list_to_set].
    rewrite (comm_L (∪) {[k0]} (list_to_set l.*1)).
    by rewrite (assoc_L (∪)).
Qed.

Lemma write_all_map_to_list (M : gmap string num) :
  write_all ∅ (map_to_list M) = M.
Proof.
  apply map_eq. intros k. rewrite write_all_lookup, lookup_empty.
  destruct (M !! k) as [x|] eqn:HM.
  - apply elem_of_map_to_list in HM.
    by rewrite (members_get_NoDup _ k x (NoDup_fst_map_to_list M) HM).
  - destruct (members_get k (map_to_list M)) as [x|] eqn:Hget; [|reflexivity].
    apply members_get_elem, elem_of_map_to_list in Hget. congruence.
Qed.

Lemma results_of_json_of_results (M : gmap string num) :
  results_of_json (json_of_results M) = Some M.
Proof.
  unfold results_of_json, json_of_results.
  assert (Hmap : ∀ l : list (string * num),
    mapM (λ kv : string * json num, x ← as_number kv.2; Some (kv.1, x))
         ((λ kv : string * num, (kv.1, JNum kv.2)) <$> l) = Some l).
  { induction l as [|[k v] l IH]; [reflexivity|].
    rewrite fmap_cons. cbn. cbn in IH. by rewrite IH. }
  rewrite Hmap. cbn. by rewrite write_all_map_to_list.
Qed.
End write_all_facts.

(** A list with a repeated element has fewer distinct elements than
    positions. *)
Lemma size_list_to_set_le (l : list string) :
  (size (list_to_set l : gset string) ≤ length l)%nat.
Proof.
  induction l as [|x l IH]; [done|].
  cbn [list_to_set length]. rewrite size_union_alt, size_singleton.
  assert (size (list_to_set l ∖ {[x]} : gset string) ≤ size (list_to_set l : gset string))%nat
    by (apply subseteq_size, subseteq_difference_l; reflexivity).
  lia.
Qed.

Lemma size_list_to_set_dup (l : list string) :
  ¬ NoDup l → (size (list_to_set l : gset string) < length l)%nat.
Proof.
  induction l as [|x l IH]; intros Hdup; [by destruct Hdup; constructor|].
  cbn [list_to_set length].
  destruct (decide (x ∈ l)) as [Hin|Hnotin].
  - rewrite (subseteq_union_1_L ({[x]} : gset string))
      by (apply singleton_subseteq_l, elem_of_list_to_set, Hin).
    pose proof (size_list_to_set_le l). lia.
  - rewrite size_union
      by (apply disjoint_singleton_l; by rewrite elem_of_list_to_set).
    rewrite size_singleton.
    assert (¬ NoDup l) as Hl by (intros Hnd; apply Hdup; by constructor).
    specialize (IH Hl). lia.
Qed.

(** ** The collectors, when every scoring call returns *)

Section deepeval_facts.
Context {num : Type}.
Implicit Types (mxs : list (DeepEval.metric num * num)).

Lemma deepeval_evaluate_returns tc mxs st :
  deepeval_returns tc mxs →
  DeepEval.evaluate mxs.*1 tc st = (collected DeepEval.class_name mxs st, None).
Proof.
  intros Hall. revert st.
  induction Hall as [|[m x] mxs Hm _ IH]; intros st.
  - destruct st. unfold collected. cbn. by rewrite app_nil_r.
  - cbn [fmap list_fmap fst DeepEval.evaluate]. cbn in Hm. rewrite Hm, IH.
    unfold collected, setitem, called. cbn. by rewrite <- app_assoc.
Qed.
End deepeval_facts.

Section opik_facts.
Context {num : Type}.
Implicit Types (mxs : list (Opik.metric num * num)).

Lemma opik_evaluate_returns output reference metrics mxs st :
  mxs.*1 = List.filter Opik.scored metrics →
  opik_returns output reference mxs →
  Opik.evaluate metrics output reference st
  = (collected Opik.class_name mxs st, None).
Proof.
  revert mxs st. induction metrics as [|m metrics IH]; intros mxs st Hfil Hall.
  - destruct mxs; [|done]. destruct st. unfold collected. cbn.
    by rewrite app_nil_r.
  - cbn [List.filter Opik.evaluate] in *. unfold Opik.scored in Hfil at 1.
    destruct (Opik.isinstance_Equals m) eqn:HE;
      [|destruct (Opik.isinstance_Moderation m) eqn:HM]; cbn in Hfil.
    3: by apply IH.
    all: destruct mxs as [|[m' x] mxs]; [done|];
      cbn in Hfil; injection Hfil as -> Hfil;
      apply Forall_cons in Hall as [Hm Hall]; cbn in Hm; rewrite Hm;
      rewrite (IH mxs) by done;
      unfold collected, setitem, called; cbn; by rewrite <- app_assoc.
Qed.
End opik_facts.

Section collected_facts.
Context {num metric : Type} (name : metric → string).
Implicit Types (mxs : list (metric * num)).

Lemma collected_lookup_last mxs (j : nat) m x :
  mxs !! j = Some (m, x) → last_of_its_name name mxs j (name m) →
  metric_results (collected name mxs initial) !! name m = Some x.
Proof.
  intros Hj Hlast. cbn [collected metric_results initial].
  rewrite write_all_lookup.
  rewrite (members_get_last _ j (name m) x); [reflexivity| |].
  - by rewrite list_lookup_fmap, Hj.
  - intros j' k' x' Hlt Hj'. rewrite list_lookup_fmap in Hj'.
    destruct (mxs !! j') as [[m' y]|] eqn:Hm'; [|done].
    injection Hj' as <- <-. by apply (Hlast j' m' y).
Qed.

Lemma collected_lookup_none mxs k :
  (∀ m x, (m, x) ∈ mxs → name m ≠ k) →
  metric_results (collected name mxs initial) !! k = None.
Proof.
  intros Hno. cbn [collected metric_results initial].
  rewrite write_all_lookup, members_get_None; [apply lookup_empty|].
  intros j k' x' Hj. rewrite list_lookup_fmap in Hj.
  destruct (mxs !! j) as [[m y]|] eqn:Hm; [|done].
  injection Hj as <- <-. apply (Hno m y). by eapply list_elem_of_lookup_2.
Qed.

Lemma collected_last_write_wins mxs :
  last_write_wins name mxs (metric_results (collected name mxs initial)).
Proof.
  split.
  - intros i j a xa b xb _ _ Hb _ Hlast. by apply (collected_lookup_last mxs j).
  - intros i m x Hi Honly. apply (collected_lookup_last mxs i); [done|].
    intros j' m' x' Hlt Hj'. apply (Honly j' m' x'); [lia|done].
Qed.

Lemma collected_dom mxs :
  dom (metric_results (collected name mxs initial)) = list_to_set (name <$> mxs.*1).
Proof.
  cbn [collected metric_results initial].
  rewrite write_all_dom, dom_empty_L, (right_id_L ∅ (∪)).
  by rewrite <- !list_fmap_compose.
Qed.

Lemma collected_keyed_by_class_name mxs :
  keyed_by_class_name name mxs (metric_results (collected name mxs initial)).
Proof.
  split; [apply collected_dom|].
  intros i j a xa b xb Hij Hi Hj Hname.
  rewrite <- size_dom, collected_dom. split.
  - replace (length mxs) with (length (name <$> mxs.*1))
      by by rewrite !length_fmap.
    apply size_list_to_set_dup. intros Hnd. apply Hij.
    apply (NoDup_lookup _ i j (name a) Hnd).
    + by rewrite !list_lookup_fmap, Hi.
    + by rewrite !list_lookup_fmap, Hj, Hname.
  - apply elem_of_list_to_set, list_elem_of_lookup. exists i.
    by rewrite !list_lookup_fmap, Hi.
Qed.
End collected_facts.

(** ** The score collectors: claims C7, C8 and C10 *)

(** C7, as amended.  When every scoring call returns: the DeepEval loop
    calls [measure] on each metric of the sequence exactly once, in order,
    and the dict holds each metric's score under its class name unless a
    later metric of the same class overwrote it; the Opik loop does the
    same for the metrics that are instances of [Equals] or [Moderation]
    and skips every other metric, which is neither called nor recorded. *)
Theorem collectors_invoke_and_record {num : Type} :
  (∀ tc (mxs : list (DeepEval.metric num * num)),
      deepeval_returns tc mxs →
      let run := DeepEval.evaluate mxs.*1 tc initial in
      run.2 = None
      ∧ calls run.1 = mxs.*1
      ∧ ∀ (j : nat) m x,
          mxs !! j = Some (m, x) →
          last_of_its_name DeepEval.class_name mxs j (DeepEval.class_name m) →
          metric_results run.1 !! DeepEval.class_name m = Some x)
  ∧ (∀ output reference metrics (mxs : list (Opik.metric num * num)),
      mxs.*1 = List.filter Opik.scored metrics →
      opik_returns output reference mxs →
      let run := Opik.evaluate metrics output reference initial in
      run.2 = None
      ∧ calls run.1 = List.filter Opik.scored metrics
      ∧ (∀ (j : nat) m x,
          mxs !! j = Some (m, x) →
          last_of_its_name Opik.class_name mxs j (Opik.class_name m) →
          metric_results run.1 !! Opik.class_name m = Some x)
      ∧ (∀ m, m ∈ metrics → Opik.scored m = false → m ∉ calls run.1)
      ∧ (∀ k, (∀ m, m ∈ metrics → Opik.scored m = true → Opik.class_name m ≠ k) →
              metric_results run.1 !! k = None)).
Proof.
  split.
  - intros tc mxs Hret. cbv zeta. rewrite (deepeval_evaluate_returns tc mxs) by done.
    split; [done|]. split; [done|].
    intros j m x Hj Hlast. by apply (collected_lookup_last _ mxs j).
  - intros output reference metrics mxs Hfil Hret. cbv zeta.
    rewrite (opik_evaluate_returns output reference metrics mxs) by done.
    cbn [fst snd]. split; [done|]. split; [by rewrite <- Hfil|].
    split; [|split].
    + intros j m x Hj Hlast. by apply (collected_lookup_last _ mxs j).
    + intros m _ Hm Hin. cbn [collected calls initial app] in Hin.
      rewrite Hfil in Hin. apply list_elem_of_In, filter_In in Hin as [_ Hin].
      congruence.
    + intros k Hk. apply collected_lookup_none. intros m x Hin.
      assert (m ∈ mxs.*1) as Hm
        by (apply list_elem_of_fmap; by exists (m, x)).
      rewrite Hfil in Hm. apply list_elem_of_In, filter_In in Hm as [Hm Hs].
      apply Hk; [by apply list_elem_of_In|done].
Qed.

Lemma collectors_invoke_and_record_witness :
  calls (DeepEval.evaluate Sample.deepeval_metrics Sample.tc initial).1
    = Sample.deepeval_metrics
  ∧ calls (Opik.evaluate Sample.opik_metrics "output" "reference" initial).1
    = [Sample.Equals Sample.n0_0; Sample.Moderation Sample.n0_0;
       Sample.Equals Sample.n1_0].
Proof.
  split.
  - apply (proj1 collectors_invoke_and_record Sample.tc Sample.deepeval_run).
    repeat constructor.
  - apply (proj2 collectors_invoke_and_record "output" "reference"
             Sample.opik_metrics Sample.opik_run); [reflexivity|].
    repeat constructor.
Defined.

(** C7 as the specification states it fails on the Opik loop: a metric
    that is neither an [Equals] nor a [Moderation] is in the sequence, its
    [score] would return, and it is neither called nor recorded. *)
Lemma collector_skips_counterexample :
  ¬ (∀ (metrics : list (Opik.metric Sample.number)) (xs : list Sample.number)
       (output reference : string),
        Forall2 (λ m x, Opik.score m output reference = Return {| Opik.value := x |})
                metrics xs →
        let run := Opik.evaluate metrics output reference initial in
        calls run.1 = metrics
        ∧ ∀ (j : nat) m x, metrics !! j = Some m → xs !! j = Some x →
            is_Some (metric_results run.1 !! Opik.class_name m)).
Proof.
  intros H.
  destruct (H [Sample.GEval Sample.n0_5] [Sample.n0_5] "output" "reference")
    as [Hcalls _]; [repeat constructor|].
  discriminate Hcalls.
Qed.

(** C8.  When every scoring call returns, of two scored metrics that have
    the same class name the dict holds the score of the later one, and a
    class name scored once holds that one score; in both loops. *)
Theorem collectors_last_write_wins {num : Type} :
  (∀ tc (mxs : list (DeepEval.metric num * num)),
      deepeval_returns tc mxs →
      last_write_wins DeepEval.class_name mxs
        (metric_results (DeepEval.evaluate mxs.*1 tc initial).1))
  ∧ (∀ output reference metrics (mxs : list (Opik.metric num * num)),
      mxs.*1 = List.filter Opik.scored metrics →
      opik_returns output reference mxs →
      last_write_wins Opik.class_name mxs
        (metric_results (Opik.evaluate metrics output reference initial).1)).
Proof.
  split.
  - intros tc mxs Hret. rewrite (deepeval_evaluate_returns tc mxs) by done.
    apply collected_last_write_wins.
  - intros output reference metrics mxs Hfil Hret.
    rewrite (opik_evaluate_returns output reference metrics mxs) by done.
    apply collected_last_write_wins.
Qed.

Lemma collectors_last_write_wins_witness :
  metric_results (DeepEval.evaluate Sample.deepeval_metrics Sample.tc initial).1
    !! "AnswerRelevancyMetric" = Some Sample.n0_5
  ∧ metric_results (DeepEval.evaluate Sample.deepeval_metrics Sample.tc initial).1
    !! "HallucinationMetric" = Some Sample.n0_0
  ∧ metric_results (Opik.evaluate Sample.opik_metrics "output" "reference" initial).1
    !! "Equals" = Some Sample.n1_0.
Proof.
  assert (Hd : deepeval_returns Sample.tc Sample.deepeval_run) by repeat constructor.
  assert (Ho : opik_returns "output" "reference" Sample.opik_run) by repeat constructor.
  destruct (proj1 collectors_last_write_wins Sample.tc Sample.deepeval_run Hd)
    as [Hlater Honce].
  destruct (proj2 collectors_last_write_wins "output" "reference"
              Sample.opik_metrics Sample.opik_run eq_refl Ho) as [Hlater' _].
  split; [|split].
  - apply (Hlater 0%nat 2%nat (Sample.deepeval_metric "AnswerRelevancyMetric" Sample.n1_0)
             Sample.n1_0 (Sample.deepeval_metric "AnswerRelevancyMetric" Sample.n0_5)
             Sample.n0_5); [lia|reflexivity|reflexivity|reflexivity|].
    intros [|[|[|j']]] m x Hlt Hj'; (lia || discriminate Hj').
  - apply (Honce 1%nat (Sample.deepeval_metric "HallucinationMetric" Sample.n0_0)
             Sample.n0_0); [reflexivity|].
    intros [|[|[|i']]] m' x' Hne Hi'; try done; try discriminate Hi';
      injection Hi' as <- _; discriminate.
  - apply (Hlater' 0%nat 2%nat (Sample.Equals Sample.n0_0) Sample.n0_0
             (Sample.Equals Sample.n1_0) Sample.n1_0);
      [lia|reflexivity|reflexivity|reflexivity|].
    intros [|[|[|j']]] m x Hlt Hj'; (lia || discriminate Hj').
Defined.

(** C10.  When every scoring call returns, the keys of the dict are
    exactly the class names of the scored metrics, and two scored
    instances of one class share one key: the dict has fewer entries than
    there are scored metrics; in both loops. *)
Theorem collectors_keyed_by_class_name {num : Type} :
  (∀ tc (mxs : list (DeepEval.metric num * num)),
      deepeval_returns tc mxs →
      keyed_by_class_name DeepEval.class_name mxs
        (metric_results (DeepEval.evaluate mxs.*1 tc initial).1))
  ∧ (∀ output reference metrics (mxs : list (Opik.metric num * num)),
      mxs.*1 = List.filter Opik.scored metrics →
      opik_returns output reference mxs →
      keyed_by_class_name Opik.class_name mxs
        (metric_results (Opik.evaluate metrics output reference initial).1)).
Proof.
  split.
  - intros tc mxs Hret. rewrite (deepeval_evaluate_returns tc mxs) by done.
    apply collected_keyed_by_class_name.
  - intros output reference metrics mxs Hfil Hret.
    rewrite (opik_evaluate_returns output reference metrics mxs) by done.
    apply collected_keyed_by_class_name.
Qed.

Lemma collectors_keyed_by_class_name_witness :
  dom (metric_results (DeepEval.evaluate Sample.deepeval_metrics Sample.tc initial).1)
    = list_to_set ["AnswerRelevancyMetric"; "HallucinationMetric"; "AnswerRelevancyMetric"]
  ∧ (size (metric_results
             (Opik.evaluate Sample.opik_metrics "output" "reference" initial).1)
     < 3)%nat.
Proof.
  assert (Hd : deepeval_returns Sample.tc Sample.deepeval_run) by repeat constructor.
  assert (Ho : opik_returns "output" "reference" Sample.opik_run) by repeat constructor.
  split.
  - exact (proj1 (proj1 collectors_keyed_by_class_name Sample.tc Sample.deepeval_run Hd)).
  - destruct (proj2 collectors_keyed_by_class_name "output" "reference"
                Sample.opik_metrics Sample.opik_run eq_refl Ho) as [_ Hdup].
    apply (Hdup 0%nat 2%nat (Sample.Equals Sample.n0_0) Sample.n0_0
             (Sample.Equals Sample.n1_0) Sample.n1_0); [lia|reflexivity..].
Defined.

(** ** The client, run against a remote *)

Section client_facts.
Context {num : Type} `{!PyNumber num}.
Implicit Types (M : gmap string num) (net : transport num) (resp : @response num).

Lemma run_post_metrics M auth_token user_id net :
  run (post_metrics_to_TRACE_Metric_API M auth_token user_id) net
  = let req := metrics_post deepeval_metadata M auth_token user_id in
    match net req with
    | Raise e => (Raise e, [Sent req])
    | Return resp =>
        match decoded resp with
        | Return body =>
            (Return body,
             [Sent req; Printed (status_line resp);
              Printed [JStr "Response JSON:"; body]])
        | Raise _ =>
            (Return JNull,
             [Sent req; Printed (status_line resp);
              Printed [JStr "Response Text:"; JStr (text resp)]])
        end
    end.
Proof.
  unfold run, post_metrics_to_TRACE_Metric_API, mbind, io_bind, bind,
    requests_post, send, try_except, response_json, print, mret, io_ret, ret.
  cbv zeta.
  change ("https://api.cognitiveview.com" +:+ "/cv/v1/metrics")
    with "https://api.cognitiveview.com/cv/v1/metrics".
  fold (api_headers auth_token user_id).
  change (Request POST _ _ _) with (metrics_post deepeval_metadata M auth_token user_id).
  destruct (net _) as [resp|e]; [|reflexivity].
  destruct (decoded resp) as [body|]; reflexivity.
Qed.

Lemma run_opik_post_cell M net :
  run (opik_post_cell M) net
  = let req := metrics_post opik_metadata M
                 "Your-Authorization-Token-Here" "C473421_T181751" in
    match net req with
    | Raise e => (Raise e, [Sent req])
    | Return resp =>
        match decoded resp with
        | Return body =>
            (Return (),
             [Sent req; Printed (status_line resp);
              Printed [JStr "Response JSON:"; body]])
        | Raise e => (Raise e, [Sent req; Printed (status_line resp)])
        end
    end.
Proof.
  unfold run, opik_post_cell, mbind, io_bind, bind,
    requests_post, send, response_json, print.
  cbv zeta.
  change ("https://api.cognitiveview.com" +:+ "/cv/v1/metrics")
    with "https://api.cognitiveview.com/cv/v1/metrics".
  fold (api_headers "Your-Authorization-Token-Here" "C473421_T181751").
  change (Request POST _ _ _)
    with (metrics_post opik_metadata M
            "Your-Authorization-Token-Here" "C473421_T181751").
  destruct (net _) as [resp|e]; [|reflexivity].
  destruct (decoded resp) as [body|]; reflexivity.
Qed.

Lemma run_fetch_report_result report_id auth_token user_id net :
  run (fetch_report_result report_id auth_token user_id) net
  = let req := report_get report_id auth_token user_id in
    match net req with
    | Raise e => (Raise e, [Sent req])
    | Return resp =>
        if decide (status_code resp = 200) then
          match decoded resp with
          | Return body => (Return body, [Sent req])
          | Raise e => (Raise e, [Sent req])
          end
        else (Return JNull, [Sent req; Printed (failed_line resp)])
    end.
Proof.
  unfold run, fetch_report_result, mbind, io_bind, bind,
    requests_get, send, response_json, print, mret, io_ret, ret.
  cbv zeta. fold (api_headers auth_token user_id).
  change (Request GET _ _ _) with (report_get (num:=num) report_id auth_token user_id).
  destruct (net _) as [resp|e]; [|reflexivity].
  case_decide; [|reflexivity].
  destruct (decoded resp) as [body|]; reflexivity.
Qed.

Lemma sent_post_metrics M auth_token user_id net :
  sent_requests (run (post_metrics_to_TRACE_Metric_API M auth_token user_id) net).2
  = [metrics_post deepeval_metadata M auth_token user_id].
Proof.
  rewrite run_post_metrics. cbv zeta.
  destruct (net _) as [resp|e]; [|reflexivity].
  destruct (decoded resp); reflexivity.
Qed.

Lemma sent_opik_post_cell M net :
  sent_requests (run (opik_post_cell M) net).2
  = [metrics_post opik_metadata M "Your-Authorization-Token-Here" "C473421_T181751"].
Proof.
  rewrite run_opik_post_cell. cbv zeta.
  destruct (net _) as [resp|e]; [|reflexivity].
  destruct (decoded resp); reflexivity.
Qed.

Lemma sent_fetch_report_result report_id auth_token user_id net :
  sent_requests (run (fetch_report_result report_id auth_token user_id) net).2
  = [report_get report_id auth_token user_id].
Proof.
  rewrite run_fetch_report_result. cbv zeta.
  destruct (net _) as [resp|e]; [|reflexivity].
  case_decide; [|reflexivity].
  destruct (decoded resp); reflexivity.
Qed.

Lemma api_headers_Authorization auth_token user_id :
  api_headers auth_token user_id !! "Authorization" = Some auth_token.
Proof. apply lookup_insert_eq. Qed.
End client_facts.

Global Instance sample_number_laws : PyNumberLaws Sample.number.
Proof.
  split.
  - by intros [].
  - intros []; repeat constructor.
  - by intros [].
Qed.

(** ** The metrics-reporting client: claims C1 to C6 and C9 *)

(** C1, as amended.  For every [metric_results] dict [M], whatever the
    credentials and the remote, the DeepEval function sends one POST whose
    JSON document is the payload of the specification for the metadata,
    the resource id ["res_123456"] and the resource name
    ["chat-completion"] written in the notebook, and so does the Opik
    cell; the third key under [metric_data] is the provider stored in
    [metric_metadata] (["deepeval"], ["opik"]).  Provider, resource id and
    resource name are not arguments. *)
Theorem posted_payload_shape {num : Type} `{!PyNumber num}
    (M : gmap string num) (auth_token user_id : string) (net : transport num) :
  (req_json <$> sent_requests
      (run (post_metrics_to_TRACE_Metric_API M auth_token user_id) net).2
   = [Some (Spec.MetricsPayload deepeval_metadata "res_123456" "chat-completion" M)]
   ∧ req_json <$> sent_requests (run (opik_post_cell M) net).2
   = [Some (Spec.MetricsPayload opik_metadata "res_123456" "chat-completion" M)])
  ∧ ∀ R r n,
      (json_keys <$> json_get "metric_data" (Spec.MetricsPayload R r n M))
      = Some ["resource_id"; "resource_name"; Spec.provider R]
      ∧ (json_get "metric_metadata" (Spec.MetricsPayload R r n M)
           ≫= json_get "provider") = Some (JStr (Spec.provider R))
      ∧ (json_keys <$> json_get "metric_metadata" (Spec.MetricsPayload R r n M))
      = Some ["application_name"; "version"; "resource_name"; "resource_id";
              "url"; "provider"; "use_case"]
      ∧ json_keys (Spec.MetricsPayload R r n M) = ["metric_metadata"; "metric_data"].
Proof.
  split; [split|].
  - by rewrite sent_post_metrics.
  - by rewrite sent_opik_post_cell.
  - intros R r n. repeat split; reflexivity.
Qed.

(** C1 as the specification states it fails: the caller cannot choose the
    provider, the resource id or the resource name. *)
Lemma posted_payload_shape_counterexample :
  ¬ (∀ (M : gmap string Sample.number) (p r n auth_token user_id : string)
       (net : transport Sample.number),
        ∃ R, Spec.provider R = p
             ∧ req_json <$> sent_requests
                 (run (post_metrics_to_TRACE_Metric_API M auth_token user_id) net).2
               = [Some (Spec.MetricsPayload R r n M)]).
Proof.
  intros H.
  destruct (H Sample.opik_results "opik" "res_1" "chat" "token" "user"
              (responding Sample.ok_response)) as (R & HR & Hsent).
  rewrite sent_post_metrics in Hsent. cbn in Hsent. discriminate Hsent.
Qed.

(** C2.  Whenever the remote answers [fetch_report_result] with a status
    other than 200, the function returns [None] without raising, after
    printing the status code. *)
Theorem fetch_non_200_returns_None {num : Type} `{!PyNumber num}
    (report_id auth_token user_id : string) (resp : response) :
  status_code resp ≠ 200 →
  run (fetch_report_result (num:=num) report_id auth_token user_id) (responding resp)
  = (Return JNull,
     [Sent (report_get report_id auth_token user_id); Printed (failed_line resp)]).
Proof.
  intros Hstatus. rewrite run_fetch_report_result. cbv zeta.
  unfold responding. by rewrite decide_False.
Qed.

Lemma fetch_non_200_returns_None_witness :
  run (fetch_report_result (num:=Sample.number) "report_id" "token" "user_id")
      (responding Sample.not_found_response)
  = (Return JNull,
     [Sent (report_get "report_id" "token" "user_id");
      Printed (failed_line Sample.not_found_response)]).
Proof.
  apply (fetch_non_200_returns_None "report_id" "token" "user_id"
           Sample.not_found_response).
  cbn. lia.
Defined.

(** C3.  Whenever the remote answers [fetch_report_result] with status 200
    and a JSON body, which [response.json()] decodes to [B], the function
    returns [B] itself, whatever it holds, and prints nothing. *)
Theorem fetch_200_returns_body {num : Type} `{!PyNumber num}
    (report_id auth_token user_id : string) (resp : response) (B : json num) :
  status_code resp = 200 →
  decoded resp = Return B →
  run (fetch_report_result report_id auth_token user_id) (responding resp)
  = (Return B, [Sent (report_get report_id auth_token user_id)]).
Proof.
  intros Hstatus Hbody. rewrite run_fetch_report_result. cbv zeta.
  unfold responding. by rewrite decide_True, Hbody.
Qed.

Lemma fetch_200_returns_body_witness :
  run (fetch_report_result "report_id" "token" "user_id")
      (responding Sample.ok_response)
  = (Return Sample.report, [Sent (report_get "report_id" "token" "user_id")]).
Proof.
  apply (fetch_200_returns_body "report_id" "token" "user_id"
           Sample.ok_response Sample.report).
  - reflexivity.
  - reflexivity.
Defined.




(** C5, as amended.  Whatever the arguments and the remote, the
    [metric_metadata] object of the POSTed payload is the record written
    inside the client: the seven fields are literals of the DeepEval
    function and of the Opik cell, and none comes from the caller, who has
    no metadata argument. *)
Theorem posted_metadata_fixed {num : Type} `{!PyNumber num}
    (M : gmap string num) (auth_token user_id : string) (net : transport num) :
  (λ r, req_json r ≫= json_get "metric_metadata")
    <$> sent_requests
          (run (post_metrics_to_TRACE_Metric_API M auth_token user_id) net).2
  = [Some (Spec.metric_metadata deepeval_metadata)]
  ∧ (λ r, req_json r ≫= json_get "metric_metadata")
      <$> sent_requests (run (opik_post_cell M) net).2
    = [Some (Spec.metric_metadata opik_metadata)].
Proof.
  split.
  - by rewrite sent_post_metrics.
  - by rewrite sent_opik_post_cell.
Qed.

(** C5 as the specification states it fails: a caller's metadata record
    that differs from the notebook's is not what is posted. *)
Lemma posted_metadata_counterexample :
  ¬ (∀ (R : Spec.ReportMetadata) (M : gmap string Sample.number)
       (auth_token user_id : string) (net : transport Sample.number),
        (λ r, req_json r ≫= json_get "metric_metadata")
          <$> sent_requests
                (run (post_metrics_to_TRACE_Metric_API M auth_token user_id) net).2
        = [Some (Spec.metric_metadata R)]).
Proof.
  intros H.
  specialize (H Sample.other_metadata Sample.deepeval_results "token" "user"
                (responding Sample.ok_response)).
  rewrite sent_post_metrics in H. vm_compute in H. discriminate H.
Qed.

(** C6.  For every token [t] passed by the caller,
    [post_metrics_to_TRACE_Metric_API] and [fetch_report_result] each send
    one request, whose Authorization header is exactly [t]: nothing is put
    before it or after it.  The Opik cell, which takes no token, sends its
    [AUTH_TOKEN] literal the same way. *)
Theorem authorization_header_verbatim {num : Type} `{!PyNumber num}
    (t user_id report_id : string) (M : gmap string num) (net : transport num) :
  (λ r, req_headers r !! "Authorization")
    <$> sent_requests (run (post_metrics_to_TRACE_Metric_API M t user_id) net).2
  = [Some t]
  ∧ (λ r, req_headers r !! "Authorization")
      <$> sent_requests (run (fetch_report_result report_id t user_id) net).2
    = [Some t]
  ∧ (λ r, req_headers r !! "Authorization")
      <$> sent_requests (run (opik_post_cell M) net).2
    = [Some "Your-Authorization-Token-Here"].
Proof.
  split; [|split].
  - rewrite sent_post_metrics. cbn [fmap list_fmap metrics_post req_headers].
    by rewrite api_headers_Authorization.
  - rewrite sent_fetch_report_result. cbn [fmap list_fmap report_get req_headers].
    by rewrite api_headers_Authorization.
  - rewrite sent_opik_post_cell. cbn [fmap list_fmap metrics_post req_headers].
    by rewrite api_headers_Authorization.
Qed.

(** ** The payload on the wire: claim C9 *)

Section payload_roundtrip.
Context {num : Type} `{!PyNumber num} `{!PyNumberLaws num}.

Lemma scores_under_payload (R : Spec.ReportMetadata) r n (M : gmap string num) :
  scores_under (Spec.provider R) (Spec.MetricsPayload R r n M) = Some M.
Proof.
  unfold scores_under, Spec.MetricsPayload.
  cbn [json_get members_get mbind option_bind].
  rewrite (decide_True (P := ("metric_data" = "metric_data"))) by done.
  cbn [json_get members_get mbind option_bind].
  rewrite (decide_True (P := (Spec.provider R = Spec.provider R))) by done.
  cbn [mbind option_bind]. apply results_of_json_of_results.
Qed.

Lemma scores_under_other_key p (R : Spec.ReportMetadata) r n (M : gmap string num) :
  p ≠ "resource_id" → p ≠ "resource_name" → p ≠ Spec.provider R →
  scores_under p (Spec.MetricsPayload R r n M) = None.
Proof.
  intros H1 H2 H3. unfold scores_under, Spec.MetricsPayload.
  cbn [json_get members_get mbind option_bind].
  rewrite (decide_True (P := ("metric_data" = "metric_data"))) by done.
  cbn [json_get members_get mbind option_bind].
  rewrite (decide_False (P := (Spec.provider R = p))) by done.
  rewrite (decide_False (P := ("resource_name" = p))) by done.
  by rewrite (decide_False (P := ("resource_id" = p))).
Qed.

Lemma provider_of_payload (R : Spec.ReportMetadata) r n (M : gmap string num) :
  metadata_provider (Spec.MetricsPayload R r n M) = Some (Spec.provider R).
Proof. reflexivity. Qed.

Lemma json_of_results_wf (M : gmap string num) :
  Json.json_wf (json_of_results M).
Proof.
  unfold json_of_results. cbn [Json.json_wf]. split.
  - rewrite <- list_fmap_compose.
    apply (NoDup_fst_map_to_list M).
  - rewrite <- list_fmap_compose. apply Forall_fmap, Forall_forall.
    by intros kv _.
Qed.

(** The payload is a dict of dicts without a key twice, unless the
    provider is named as one of the two other keys of [metric_data]. *)
Lemma payload_wf (R : Spec.ReportMetadata) r n (M : gmap string num) :
  Spec.provider R ≠ "resource_id" → Spec.provider R ≠ "resource_name" →
  Json.json_wf (Spec.MetricsPayload R r n M).
Proof.
  intros H1 H2. unfold Spec.MetricsPayload, Spec.metric_metadata.
  cbn [Json.json_wf fmap list_fmap fst snd].
  assert (Hclosed : ∀ l : list string, bool_decide (NoDup l) = true → NoDup l)
    by (intros l Hl; by apply bool_decide_eq_true in Hl).
  split; [by apply Hclosed|].
  repeat apply Forall_cons_2; try apply Forall_nil_2; unfold id.
  - split; [by apply Hclosed|]. by repeat constructor.
  - split.
    + repeat apply NoDup_cons_2; try apply NoDup_nil_2;
        rewrite ?not_elem_of_cons; repeat split;
        try apply not_elem_of_nil; by try apply not_eq_sym.
    + repeat apply Forall_cons_2; try apply Forall_nil_2; unfold id; try done.
      apply json_of_results_wf.
Qed.

Lemma received_scores_eq (r : request num) (doc : json num) :
  req_json r = Some doc → Json.json_wf doc →
  received_scores r = (provider ← metadata_provider doc; scores_under provider doc)
  ∧ ∀ p, received_scores_under p r = scores_under p doc.
Proof.
  intros Hdoc Hwf. unfold received_scores, received_scores_under, wire_body.
  rewrite Hdoc. cbn [fmap option_fmap option_map mbind option_bind].
  rewrite JsonFacts.loads_dumps by done. split; reflexivity.
Qed.

Lemma received_scores_metrics_post R (M : gmap string num) auth_token user_id :
  Spec.provider R ≠ "resource_id" → Spec.provider R ≠ "resource_name" →
  received_scores (metrics_post R M auth_token user_id) = Some M
  ∧ received_scores_under (Spec.provider R) (metrics_post R M auth_token user_id)
    = Some M.
Proof.
  intros H1 H2.
  destruct (received_scores_eq (metrics_post R M auth_token user_id) _ eq_refl
              (payload_wf R _ _ M H1 H2)) as [-> ->].
  rewrite provider_of_payload. cbn [mbind option_bind].
  by rewrite scores_under_payload.
Qed.

Lemma received_scores_notebook_posts (M : gmap string num) auth_token user_id :
  received_scores (metrics_post deepeval_metadata M auth_token user_id) = Some M
  ∧ received_scores (metrics_post opik_metadata M auth_token user_id) = Some M.
Proof.
  split; apply received_scores_metrics_post; discriminate.
Qed.
End payload_roundtrip.

(** C9, as amended.  For every [metric_results] dict [M] of finite numbers,
    the body that the DeepEval function (and the Opik cell) puts on the
    wire decodes to a document whose [metric_data] entry under the
    provider named in its own [metric_metadata], which is the literal
    ["deepeval"] (["opik"]) of the notebook, is [M] exactly. *)
Theorem posted_scores_roundtrip {num : Type} `{!PyNumber num} `{!PyNumberLaws num}
    (M : gmap string num) (auth_token user_id : string) (net : transport num) :
  (received_scores <$> sent_requests
      (run (post_metrics_to_TRACE_Metric_API M auth_token user_id) net).2
   = [Some M]
   ∧ received_scores_under "deepeval" <$> sent_requests
       (run (post_metrics_to_TRACE_Metric_API M auth_token user_id) net).2
     = [Some M])
  ∧ (received_scores <$> sent_requests (run (opik_post_cell M) net).2 = [Some M]
     ∧ received_scores_under "opik" <$> sent_requests (run (opik_post_cell M) net).2
       = [Some M]).
Proof.
  rewrite sent_post_metrics, sent_opik_post_cell. cbn [fmap list_fmap].
  destruct (received_scores_metrics_post deepeval_metadata M auth_token user_id)
    as [-> Hd]; [done..|].
  destruct (received_scores_metrics_post opik_metadata M
              "Your-Authorization-Token-Here" "C473421_T181751") as [-> Ho];
    [done..|].
  cbn [Spec.provider deepeval_metadata opik_metadata] in Hd, Ho.
  rewrite Hd, Ho. repeat split; reflexivity.
Qed.

Lemma posted_scores_roundtrip_witness :
  received_scores <$> sent_requests
    (run (post_metrics_to_TRACE_Metric_API Sample.deepeval_results "token" "user")
         (responding Sample.ok_response)).2
  = [Some Sample.deepeval_results].
Proof.
  exact (proj1 (proj1 (@posted_scores_roundtrip Sample.number _ sample_number_laws
                         Sample.deepeval_results "token" "user"
                         (responding Sample.ok_response)))).
Defined.

(** C9 as the specification states it fails: for a metadata record whose
    provider is not the literal of the function, the decoded document has
    no such entry under [metric_data]. *)
Lemma posted_scores_roundtrip_counterexample :
  ¬ (∀ (M : gmap string Sample.number) (R : Spec.ReportMetadata)
       (auth_token user_id : string) (net : transport Sample.number),
        received_scores_under (Spec.provider R) <$> sent_requests
          (run (post_metrics_to_TRACE_Metric_API M auth_token user_id) net).2
        = [Some M]).
Proof.
  intros H.
  specialize (H Sample.deepeval_results Sample.scenario1_metadata "token" "user"
                (responding Sample.ok_response)).
  rewrite sent_post_metrics in H. cbn [fmap list_fmap] in H.
  destruct (received_scores_eq
              (metrics_post deepeval_metadata Sample.deepeval_results "token" "user")
              _ eq_refl) as [_ Hunder]; [by apply payload_wf|].
  rewrite Hunder in H.
  rewrite (scores_under_other_key "opik") in H; [discriminate H|done..].
Qed.

(** ** The collectors on any run: composition, failure, invariants *)

Section collector_runs.
Context {num : Type}.

Lemma deepeval_evaluate_app (l1 l2 : list (DeepEval.metric num)) tc st :
  DeepEval.evaluate (l1 ++ l2) tc st
  = match DeepEval.evaluate l1 tc st with
    | (st1, None) => DeepEval.evaluate l2 tc st1
    | (st1, Some e) => (st1, Some e)
    end.
Proof.
  revert st. induction l1 as [|m l1 IH]; intros st; [reflexivity|].
  cbn [app DeepEval.evaluate]. destruct (DeepEval.measure m tc); [apply IH|reflexivity].
Qed.

Lemma opik_evaluate_app (l1 l2 : list (Opik.metric num)) output reference st :
  Opik.evaluate (l1 ++ l2) output reference st
  = match Opik.evaluate l1 output reference st with
    | (st1, None) => Opik.evaluate l2 output reference st1
    | (st1, Some e) => (st1, Some e)
    end.
Proof.
  revert st. induction l1 as [|m l1 IH]; intros st; [reflexivity|].
  cbn [app Opik.evaluate].
  destruct (Opik.isinstance_Equals m); [|destruct (Opik.isinstance_Moderation m)];
    try apply IH;
    (destruct (Opik.score m output reference); [apply IH|reflexivity]).
Qed.

(** The scored part of an Opik loop decides it. *)
Lemma opik_evaluate_filter (metrics : list (Opik.metric num)) output reference st :
  Opik.evaluate metrics output reference st
  = Opik.evaluate (List.filter Opik.scored metrics) output reference st.
Proof.
  revert st. induction metrics as [|m metrics IH]; intros st; [reflexivity|].
  cbn [List.filter]. unfold Opik.scored at 1.
  destruct (Opik.isinstance_Equals m) eqn:HE;
    [|destruct (Opik.isinstance_Moderation m) eqn:HM]; cbn [orb].
  3: { cbn [Opik.evaluate]. rewrite HE, HM. apply IH. }
  all: cbn [Opik.evaluate]; rewrite HE, ?HM;
    destruct (Opik.score m output reference); [apply IH|reflexivity].
Qed.

(** What holds of a DeepEval loop from any state, whether or not it ends
    with an exception. *)
Lemma deepeval_evaluate_inv (metrics : list (DeepEval.metric num)) tc st :
  ∃ c, c `prefix_of` metrics
    ∧ calls (DeepEval.evaluate metrics tc st).1 = calls st ++ c
    ∧ dom (metric_results (DeepEval.evaluate metrics tc st).1)
        ⊆ dom (metric_results st) ∪ list_to_set (DeepEval.class_name <$> c)
    ∧ ((DeepEval.evaluate metrics tc st).2 = None → c = metrics)
    ∧ (∀ e, (DeepEval.evaluate metrics tc st).2 = Some e →
         ∃ m, last c = Some m ∧ DeepEval.measure m tc = Raise e).
Proof.
  revert st. induction metrics as [|m metrics IH]; intros st.
  - exists []. cbn. rewrite app_nil_r.
    split; [done|]. split; [done|]. split; [apply union_subseteq_l|]. by split.
  - cbn [DeepEval.evaluate]. destruct (DeepEval.measure m tc) as [x|e] eqn:Hm.
    + destruct (IH (setitem (DeepEval.class_name m) x (called m st)))
        as (c & Hpre & Hcalls & Hdom & Hnone & Hsome).
      exists (m :: c). split; [by apply prefix_cons|].
      split; [rewrite Hcalls; cbn; by rewrite <- app_assoc|].
      split; [|split].
      * etrans; [exact Hdom|]. cbn [setitem called metric_results].
        rewrite dom_insert_L, fmap_cons. cbn [list_to_set].
        rewrite (comm_L (∪) {[DeepEval.class_name m]} (dom (metric_results st))).
        by rewrite (assoc_L (∪)).
      * intros H. by rewrite (Hnone H).
      * intros e He. destruct (Hsome e He) as (m' & Hlast & Hm').
        exists m'. split; [|done]. destruct c; [done|exact Hlast].
    + exists [m]. split; [apply prefix_cons, prefix_nil|].
      cbn. split; [done|]. split; [apply union_subseteq_l|]. split; [done|].
      intros e' [= <-]. by exists m.
Qed.

Lemma opik_evaluate_inv (metrics : list (Opik.metric num)) output reference st :
  ∃ c, c `prefix_of` List.filter Opik.scored metrics
    ∧ calls (Opik.evaluate metrics output reference st).1 = calls st ++ c
    ∧ dom (metric_results (Opik.evaluate metrics output reference st).1)
        ⊆ dom (metric_results st) ∪ list_to_set (Opik.class_name <$> c)
    ∧ ((Opik.evaluate metrics output reference st).2 = None
         → c = List.filter Opik.scored metrics)
    ∧ (∀ e, (Opik.evaluate metrics output reference st).2 = Some e →
         ∃ m, last c = Some m ∧ Opik.score m output reference = Raise e).
Proof.
  revert st. induction metrics as [|m metrics IH]; intros st.
  - exists []. cbn. rewrite app_nil_r.
    split; [done|]. split; [done|]. split; [apply union_subseteq_l|]. by split.
  - cbn [Opik.evaluate List.filter].
    assert (Opik.scored m
            = Opik.isinstance_Equals m || Opik.isinstance_Moderation m) as ->
      by reflexivity.
    destruct (Opik.isinstance_Equals m) eqn:HE;
      [|destruct (Opik.isinstance_Moderation m) eqn:HM]; cbn [orb].
    3: apply IH.
    all: destruct (Opik.score m output reference) as [[x]|e] eqn:Hm;
      cbn [Opik.value].
    all: try (exists [m]; split; [apply prefix_cons, prefix_nil|];
              cbn; split; [done|]; split; [apply union_subseteq_l|];
              split; [done|]; intros e' [= <-]; by exists m).
    all: destruct (IH (setitem (Opik.class_name m) x (called m st)))
           as (c & Hpre & Hcalls & Hdom & Hnone & Hsome);
         exists (m :: c); split; [by apply prefix_cons|];
         (split; [rewrite Hcalls; cbn; by rewrite <- app_assoc|]);
         split; [|split].
    all: try (intros H; by rewrite (Hnone H)).
    all: try (intros e He; destruct (Hsome e He) as (m' & Hlast & Hm');
              exists m'; split; [|done]; destruct c; [done|exact Hlast]).
    all: etrans; [exact Hdom|]; cbn [setitem called metric_results Opik.value];
         rewrite dom_insert_L, fmap_cons; cbn [list_to_set];
         rewrite (comm_L (∪) {[Opik.class_name m]} (dom (metric_results st)));
         by rewrite (assoc_L (∪)).
Qed.
End collector_runs.

(** X1.  Both loops compose: running a sequence of metrics is running its
    first part and then, if that part ended without an exception, the rest
    from the state it left; an exception of the first part is the outcome
    of the whole and the rest is not run. *)
Theorem collectors_compose {num : Type} :
  (∀ (l1 l2 : list (DeepEval.metric num)) tc st,
      DeepEval.evaluate (l1 ++ l2) tc st
      = match DeepEval.evaluate l1 tc st with
        | (st1, None) => DeepEval.evaluate l2 tc st1
        | (st1, Some e) => (st1, Some e)
        end)
  ∧ (∀ (l1 l2 : list (Opik.metric num)) output reference st,
      Opik.evaluate (l1 ++ l2) output reference st
      = match Opik.evaluate l1 output reference st with
        | (st1, None) => Opik.evaluate l2 output reference st1
        | (st1, Some e) => (st1, Some e)
        end).
Proof. split; [apply deepeval_evaluate_app|apply opik_evaluate_app]. Qed.

(** X2.  A loop stops at the first scoring call that raises: the exception
    is the outcome, the failing metric has been called but has no entry of
    its own, the metrics after it are never called, and the dict is what
    the metrics before it left. *)
Theorem collectors_stop_at_first_failure {num : Type} :
  (∀ tc (mxs : list (DeepEval.metric num * num)) m rest e,
      deepeval_returns tc mxs →
      DeepEval.measure m tc = Raise e →
      let run := DeepEval.evaluate (mxs.*1 ++ m :: rest) tc initial in
      run.2 = Some e
      ∧ calls run.1 = mxs.*1 ++ [m]
      ∧ metric_results run.1
        = metric_results (DeepEval.evaluate mxs.*1 tc initial).1)
  ∧ (∀ output reference before (mxs : list (Opik.metric num * num)) m rest e,
      mxs.*1 = List.filter Opik.scored before →
      opik_returns output reference mxs →
      Opik.scored m = true →
      Opik.score m output reference = Raise e →
      let run := Opik.evaluate (before ++ m :: rest) output reference initial in
      run.2 = Some e
      ∧ calls run.1 = List.filter Opik.scored before ++ [m]
      ∧ metric_results run.1
        = metric_results (Opik.evaluate before output reference initial).1).
Proof.
  split.
  - intros tc mxs m rest e Hret Hm. cbv zeta.
    rewrite deepeval_evaluate_app, (deepeval_evaluate_returns tc mxs) by done.
    cbn [DeepEval.evaluate]. rewrite Hm. done.
  - intros output reference before mxs m rest e Hfil Hret Hs Hm. cbv zeta.
    rewrite opik_evaluate_app,
      (opik_evaluate_returns output reference before mxs) by done.
    cbn [Opik.evaluate]. unfold Opik.scored in Hs. rewrite Hm.
    destruct (Opik.isinstance_Equals m);
      [|destruct (Opik.isinstance_Moderation m); [|discriminate Hs]];
      cbn; by rewrite Hfil.
Qed.

Lemma collectors_stop_at_first_failure_witness :
  (DeepEval.evaluate
     (Sample.deepeval_metrics
      ++ Faults.failing_deepeval_metric "ContextualRecallMetric"
      :: [Sample.deepeval_metric "FaithfulnessMetric" Sample.n1_0])
     Sample.tc initial).2 = Some EvaluationError
  ∧ (Opik.evaluate
       (Sample.opik_metrics ++ Faults.failing_Moderation :: [Sample.Equals Sample.n0_5])
       "output" "reference" initial).2 = Some EvaluationError.
Proof.
  split.
  - apply (proj1 collectors_stop_at_first_failure Sample.tc Sample.deepeval_run
             (Faults.failing_deepeval_metric "ContextualRecallMetric")
             [Sample.deepeval_metric "FaithfulnessMetric" Sample.n1_0]
             EvaluationError); [repeat constructor|reflexivity].
  - apply (proj2 collectors_stop_at_first_failure "output" "reference"
             Sample.opik_metrics Sample.opik_run Faults.failing_Moderation
             [Sample.Equals Sample.n0_5] EvaluationError);
      [reflexivity|repeat constructor|reflexivity|reflexivity].
Defined.

(** X3.  On every run of a loop, however it ends: the metrics called are
    an initial part of the sequence (of its [Equals] and [Moderation]
    instances, in the Opik loop), every key of the dict is the class name
    of a metric that was called, and the dict has at most as many entries
    as metrics were called; the run ends without an exception only if all
    of them were called, and with an exception only if the last call
    raised it. *)
Theorem collectors_any_run {num : Type} :
  (∀ (metrics : list (DeepEval.metric num)) tc,
      let run := DeepEval.evaluate metrics tc initial in
      calls run.1 `prefix_of` metrics
      ∧ dom (metric_results run.1)
          ⊆ list_to_set (DeepEval.class_name <$> calls run.1)
      ∧ (size (metric_results run.1) ≤ length (calls run.1))%nat
      ∧ (run.2 = None → calls run.1 = metrics)
      ∧ (∀ e, run.2 = Some e →
           ∃ m, last (calls run.1) = Some m ∧ DeepEval.measure m tc = Raise e))
  ∧ (∀ (metrics : list (Opik.metric num)) output reference,
      let run := Opik.evaluate metrics output reference initial in
      calls run.1 `prefix_of` List.filter Opik.scored metrics
      ∧ dom (metric_results run.1)
          ⊆ list_to_set (Opik.class_name <$> calls run.1)
      ∧ (size (metric_results run.1) ≤ length (calls run.1))%nat
      ∧ (run.2 = None → calls run.1 = List.filter Opik.scored metrics)
      ∧ (∀ e, run.2 = Some e →
           ∃ m, last (calls run.1) = Some m
                ∧ Opik.score m output reference = Raise e)).
Proof.
  split.
  - intros metrics tc. cbv zeta.
    destruct (deepeval_evaluate_inv metrics tc initial)
      as (c & Hpre & Hcalls & Hdom & Hnone & Hsome).
    cbn [initial calls metric_results app] in Hcalls, Hdom.
    rewrite dom_empty_L, (left_id_L ∅ (∪)) in Hdom. rewrite Hcalls.
    split; [done|]. split; [done|]. split; [|by split].
    rewrite <- size_dom. etrans; [apply subseteq_size, Hdom|].
    etrans; [apply size_list_to_set_le|]. by rewrite length_fmap.
  - intros metrics output reference. cbv zeta.
    destruct (opik_evaluate_inv metrics output reference initial)
      as (c & Hpre & Hcalls & Hdom & Hnone & Hsome).
    cbn [initial calls metric_results app] in Hcalls, Hdom.
    rewrite dom_empty_L, (left_id_L ∅ (∪)) in Hdom. rewrite Hcalls.
    split; [done|]. split; [done|]. split; [|by split].
    rewrite <- size_dom. etrans; [apply subseteq_size, Hdom|].
    etrans; [apply size_list_to_set_le|]. by rewrite length_fmap.
Qed.

(** X4.  The Opik loop depends on the [Equals] and [Moderation] instances
    of the sequence alone: removing every other metric changes nothing,
    and a sequence made of other metrics only leaves the state as it was
    and raises nothing, whatever their [score] would do. *)
Theorem opik_loop_ignores_other_metrics {num : Type}
    (metrics : list (Opik.metric num)) (output reference : string)
    (st : collector_state num (Opik.metric num)) :
  Opik.evaluate metrics output reference st
  = Opik.evaluate (List.filter Opik.scored metrics) output reference st
  ∧ Opik.evaluate (List.filter (λ m, negb (Opik.scored m)) metrics)
      output reference st
    = (st, None).
Proof.
  split; [apply opik_evaluate_filter|].
  induction metrics as [|m metrics IH]; [reflexivity|].
  cbn [List.filter]. destruct (Opik.scored m) eqn:Hs; cbn [negb]; [exact IH|].
  cbn [Opik.evaluate]. unfold Opik.scored in Hs.
  apply orb_false_iff in Hs as [-> ->]. exact IH.
Qed.

(** ** The client and the notebooks on any remote *)

Lemma append_prefix_inj (p a b : string) : p +:+ a = p +:+ b → a = b.
Proof. induction p as [|c p IH]; cbn; [done|]. intros [= H]. by apply IH. Qed.

Section client_runs.
Context {num : Type} `{!PyNumber num}.
Implicit Types (M : gmap string num) (net : transport num) (resp : @response num).

Lemma api_headers_dom auth_token user_id :
  dom (api_headers auth_token user_id)
  = ({["Authorization"; "Content-Type"; "X-User-Id"]} : gset string).
Proof.
  unfold api_headers. rewrite !dom_insert_L, dom_empty_L.
  by rewrite (right_id_L ∅ (∪)), !(assoc_L (∪)).
Qed.

Lemma api_headers_other auth_token user_id :
  api_headers auth_token user_id !! "Content-Type" = Some "application/json"
  ∧ api_headers auth_token user_id !! "X-User-Id" = Some user_id.
Proof.
  unfold api_headers. split.
  - rewrite lookup_insert_ne by done. apply lookup_insert_eq.
  - rewrite !lookup_insert_ne by done. apply lookup_insert_eq.
Qed.

Lemma sent_deepeval_notebook (metrics : list (DeepEval.metric num)) tc net :
  sent_requests (run (deepeval_notebook metrics tc) net).2
  = match DeepEval.evaluate metrics tc initial with
    | (_, Some _) => []
    | (st, None) =>
        let post := metrics_post deepeval_metadata (metric_results st)
                      "Your-Authorization-Token-Here" "user_id" in
        match net post with
        | Raise _ => [post]
        | Return _ =>
            [post; report_get "report_id" "Your-Authorization-Token-Here" "user_id"]
        end
    end.
Proof.
  unfold run, deepeval_notebook, loop_cell, mbind, io_bind, bind, print.
  destruct (DeepEval.evaluate metrics tc initial) as [st [e|]]; [reflexivity|].
  cbn [fst snd]. cbv zeta.
  unfold post_metrics_to_TRACE_Metric_API, fetch_report_result, mbind, io_bind, bind,
    requests_post, requests_get, send, try_except, response_json, print, mret,
    io_ret, ret.
  cbv zeta.
  change ("https://api.cognitiveview.com" +:+ "/cv/v1/metrics")
    with "https://api.cognitiveview.com/cv/v1/metrics".
  fold (api_headers "Your-Authorization-Token-Here" "user_id").
  change (Request POST _ _ _)
    with (metrics_post deepeval_metadata (metric_results st)
            "Your-Authorization-Token-Here" "user_id").
  change (Request GET _ _ _)
    with (report_get (num:=num) "report_id" "Your-Authorization-Token-Here" "user_id").
  destruct (net (metrics_post _ _ _ _)) as [resp|e]; [|reflexivity].
  destruct (decoded resp) as [body|];
    (destruct (net (report_get _ _ _)) as [resp'|e']; [|reflexivity]);
    (case_decide; [|reflexivity]);
    destruct (decoded resp'); reflexivity.
Qed.

Lemma sent_opik_notebook (metrics : list (Opik.metric num)) output reference net :
  sent_requests (run (opik_notebook metrics output reference) net).2
  = match Opik.evaluate metrics output reference initial with
    | (_, Some _) => []
    | (st, None) =>
        let post := metrics_post opik_metadata (metric_results st)
                      "Your-Authorization-Token-Here" "C473421_T181751" in
        match net post with
        | Raise _ => [post]
        | Return resp =>
            match decoded resp with
            | Raise _ => [post]
            | Return _ =>
                [post; report_get "report_id" "Your-Authorization-Token-Here" "user_id"]
            end
        end
    end.
Proof.
  unfold run, opik_notebook, loop_cell, mbind, io_bind, bind, print.
  destruct (Opik.evaluate metrics output reference initial) as [st [e|]];
    [reflexivity|].
  cbn [fst snd]. cbv zeta.
  unfold opik_post_cell, fetch_report_result, mbind, io_bind, bind,
    requests_post, requests_get, send, response_json, print, mret, io_ret, ret.
  cbv zeta.
  change ("https://api.cognitiveview.com" +:+ "/cv/v1/metrics")
    with "https://api.cognitiveview.com/cv/v1/metrics".
  fold (api_headers "Your-Authorization-Token-Here" "C473421_T181751").
  fold (api_headers "Your-Authorization-Token-Here" "user_id").
  change (Request POST _ _ _)
    with (metrics_post opik_metadata (metric_results st)
            "Your-Authorization-Token-Here" "C473421_T181751").
  change (Request GET _ _ _)
    with (report_get (num:=num) "report_id" "Your-Authorization-Token-Here" "user_id").
  destruct (net (metrics_post _ _ _ _)) as [resp|e]; [|reflexivity].
  destruct (decoded resp) as [body|]; [|reflexivity].
  destruct (net (report_get _ _ _)) as [resp'|e']; [|reflexivity].
  case_decide; [|reflexivity].
  destruct (decoded resp'); reflexivity.
Qed.
End client_runs.

(** X5.  A failure of the transport comes out of each of the three pieces
    of code as the exception it is, after the one request and before any
    [print]: the [try] of [post_metrics_to_TRACE_Metric_API] does not
    cover [requests.post], and nothing is sent a second time. *)
Theorem transport_failure_propagates {num : Type} `{!PyNumber num}
    (M : gmap string num) (auth_token user_id report_id : string) (e : exn) :
  run (post_metrics_to_TRACE_Metric_API M auth_token user_id) (unreachable e)
  = (Raise e, [Sent (metrics_post deepeval_metadata M auth_token user_id)])
  ∧ run (opik_post_cell M) (unreachable e)
    = (Raise e,
       [Sent (metrics_post opik_metadata M
                "Your-Authorization-Token-Here" "C473421_T181751")])
  ∧ run (fetch_report_result (num:=num) report_id auth_token user_id)
        (unreachable e)
    = (Raise e, [Sent (report_get report_id auth_token user_id)]).
Proof.
  rewrite run_post_metrics, run_opik_post_cell, run_fetch_report_result.
  done.
Qed.

(** X6.  On a response for which [response.json()] raises, as it does
    when the body is not valid JSON, the cell of the Opik notebook ends
    with that exception, having printed the status code only, where
    [post_metrics_to_TRACE_Metric_API] prints the raw text and returns
    [None]. *)
Theorem opik_cell_raises_on_invalid_body {num : Type} `{!PyNumber num}
    (M : gmap string num) (auth_token user_id : string) (resp : response)
    (e : exn) :
  decoded resp = Raise e →
  run (opik_post_cell M) (responding resp)
  = (Raise e,
     [Sent (metrics_post opik_metadata M
              "Your-Authorization-Token-Here" "C473421_T181751");
      Printed (status_line resp)])
  ∧ run (post_metrics_to_TRACE_Metric_API M auth_token user_id) (responding resp)
    = (Return JNull,
       [Sent (metrics_post deepeval_metadata M auth_token user_id);
        Printed (status_line resp);
        Printed [JStr "Response Text:"; JStr (text resp)]]).
Proof.
  intros Hbody. rewrite run_opik_post_cell, run_post_metrics. cbv zeta.
  unfold responding. by rewrite Hbody.
Qed.

Lemma opik_cell_raises_on_invalid_body_witness :
  (run (opik_post_cell Sample.opik_results)
       (responding Sample.not_found_response)).1 = Raise JSONDecodeError.
Proof.
  refine (f_equal fst (proj1 (opik_cell_raises_on_invalid_body
            Sample.opik_results "token" "user" Sample.not_found_response
            JSONDecodeError _))).
  reflexivity.
Defined.

(** X7.  [fetch_report_result] ends with the exception of
    [response.json()] when the remote answers 200 and the body cannot be
    decoded, as with a body that is not valid JSON: the call is not
    guarded, and nothing is printed. *)
Theorem fetch_200_invalid_body_raises {num : Type} `{!PyNumber num}
    (report_id auth_token user_id : string) (resp : response) (e : exn) :
  status_code resp = 200 →
  decoded resp = Raise e →
  run (fetch_report_result (num:=num) report_id auth_token user_id) (responding resp)
  = (Raise e, [Sent (report_get report_id auth_token user_id)]).
Proof.
  intros Hstatus Hbody. rewrite run_fetch_report_result. cbv zeta.
  unfold responding. by rewrite decide_True, Hbody.
Qed.

Lemma fetch_200_invalid_body_raises_witness :
  run (fetch_report_result (num:=Sample.number) "report_id" "token" "user_id")
      (responding Faults.html_response)
  = (Raise JSONDecodeError, [Sent (report_get "report_id" "token" "user_id")]).
Proof.
  apply (fetch_200_invalid_body_raises "report_id" "token" "user_id"
           Faults.html_response JSONDecodeError); reflexivity.
Defined.

(** X8.  The value [fetch_report_result] returns does not tell a missing
    report from a report that is the JSON value [null]: a 200 response
    with body [null] and any response with another status both return
    [None]; only the second prints a line. *)
Theorem fetch_None_is_ambiguous {num : Type} `{!PyNumber num}
    (report_id auth_token user_id : string) (resp resp' : response) :
  status_code resp = 200 →
  decoded resp = Return (JNull (num:=num)) →
  status_code resp' ≠ 200 →
  (run (fetch_report_result (num:=num) report_id auth_token user_id)
       (responding resp)).1
  = (run (fetch_report_result report_id auth_token user_id) (responding resp')).1
  ∧ printed (run (fetch_report_result (num:=num) report_id auth_token user_id)
                 (responding resp)).2 = []
  ∧ printed (run (fetch_report_result (num:=num) report_id auth_token user_id)
                 (responding resp')).2 = [failed_line resp'].
Proof.
  intros Hstatus Hbody Hstatus'. rewrite !run_fetch_report_result. cbv zeta.
  unfold responding. by rewrite decide_True, Hbody, decide_False.
Qed.

Lemma fetch_None_is_ambiguous_witness :
  (run (fetch_report_result (num:=Sample.number) "report_id" "token" "user_id")
       (responding Faults.null_response)).1
  = (run (fetch_report_result "report_id" "token" "user_id")
         (responding Sample.not_found_response)).1.
Proof.
  apply (fetch_None_is_ambiguous "report_id" "token" "user_id"
           Faults.null_response Sample.not_found_response);
    [reflexivity|reflexivity|cbn; lia].
Defined.

(** X9.  [fetch_report_result] calls [requests.get] once, without a body,
    and the [url] it passes is the metrics URL followed by the report id
    exactly as it was given: the function escapes, trims and checks
    nothing itself, so the [url] arguments of two report ids that differ
    differ.  What [requests] makes of that [url] before it goes on the
    wire is outside the statement. *)
Theorem fetch_url_is_report_id_verbatim {num : Type} `{!PyNumber num}
    (report_id auth_token user_id : string) (net : transport num) :
  (λ r, (req_method r, req_url r, req_json r))
    <$> sent_requests (run (fetch_report_result report_id auth_token user_id) net).2
  = [(GET, "https://api.cognitiveview.com/cv/v1/metrics/" +:+ report_id, None)]
  ∧ ∀ report_id' auth_token' user_id' (net' : transport num),
      req_url <$> sent_requests
        (run (fetch_report_result report_id' auth_token' user_id') net').2
      = req_url <$> sent_requests
          (run (fetch_report_result report_id auth_token user_id) net).2 →
      report_id' = report_id.
Proof.
  split; [by rewrite sent_fetch_report_result|].
  intros report_id' auth_token' user_id' net'.
  rewrite !sent_fetch_report_result. cbn [fmap list_fmap report_get req_url].
  intros [= H]. by apply append_prefix_inj in H.
Qed.

(** X10.  The [headers] dict of every request has the three keys
    Authorization, Content-Type and X-User-Id and no other; X-User-Id is
    the [user_id] argument as given and Content-Type is
    application/json, on the GET of [fetch_report_result] as on the POST,
    although the GET has no body. *)
Theorem request_headers_exact {num : Type} `{!PyNumber num}
    (M : gmap string num) (auth_token user_id report_id : string)
    (net : transport num) :
  Forall (λ r, dom (req_headers r)
                 = ({["Authorization"; "Content-Type"; "X-User-Id"]} : gset string)
               ∧ req_headers r !! "Content-Type" = Some "application/json"
               ∧ req_headers r !! "X-User-Id" = Some user_id)
    (sent_requests (run (post_metrics_to_TRACE_Metric_API M auth_token user_id) net).2
     ++ sent_requests (run (fetch_report_result report_id auth_token user_id) net).2)
  ∧ req_headers <$> sent_requests
      (run (post_metrics_to_TRACE_Metric_API M auth_token user_id) net).2
    = req_headers <$> sent_requests
        (run (fetch_report_result report_id auth_token user_id) net).2.
Proof.
  rewrite sent_post_metrics, sent_fetch_report_result. split; [|reflexivity].
  cbn [app]. constructor; [|constructor; [|constructor]];
    cbn [metrics_post report_get req_headers];
    (split; [apply api_headers_dom|apply api_headers_other]).
Qed.

(** X11.  When the loop of a notebook raises, the script ends there with
    that exception: nothing has been printed and no request is sent, so a
    partial dict of scores is never posted. *)
Theorem notebook_stops_when_loop_raises {num : Type} `{!PyNumber num} :
  (∀ (metrics : list (DeepEval.metric num)) tc (net : transport num) e,
      (DeepEval.evaluate metrics tc initial).2 = Some e →
      run (deepeval_notebook metrics tc) net = (Raise e, []))
  ∧ (∀ (metrics : list (Opik.metric num)) output reference (net : transport num) e,
      (Opik.evaluate metrics output reference initial).2 = Some e →
      run (opik_notebook metrics output reference) net = (Raise e, [])).
Proof.
  split.
  - intros metrics tc net e He.
    unfold run, deepeval_notebook, loop_cell, mbind, io_bind, bind.
    by rewrite He.
  - intros metrics output reference net e He.
    unfold run, opik_notebook, loop_cell, mbind, io_bind, bind.
    by rewrite He.
Qed.

Lemma notebook_stops_when_loop_raises_witness :
  run (deepeval_notebook
         (Sample.deepeval_metrics
          ++ [Faults.failing_deepeval_metric "ContextualRecallMetric"])
         Sample.tc)
      (responding Sample.ok_response)
  = (Raise EvaluationError, [])
  ∧ run (opik_notebook (Sample.opik_metrics ++ [Faults.failing_Moderation])
           "output" "reference")
        (responding Sample.ok_response)
    = (Raise EvaluationError, []).
Proof.
  split.
  - apply (proj1 notebook_stops_when_loop_raises). reflexivity.
  - apply (proj2 notebook_stops_when_loop_raises). reflexivity.
Defined.

(** X12.  When the loop of a notebook ends without an exception, the first
    request of the script is the POST, and the scores a receiver decodes
    from its body are exactly the dict the loop built. *)
Theorem notebook_posts_what_the_loop_built
    {num : Type} `{!PyNumber num} `{!PyNumberLaws num} :
  (∀ (metrics : list (DeepEval.metric num)) tc (net : transport num),
      (DeepEval.evaluate metrics tc initial).2 = None →
      received_scores
        <$> head (sent_requests (run (deepeval_notebook metrics tc) net).2)
      = Some (Some (metric_results (DeepEval.evaluate metrics tc initial).1)))
  ∧ (∀ (metrics : list (Opik.metric num)) output reference (net : transport num),
      (Opik.evaluate metrics output reference initial).2 = None →
      received_scores
        <$> head (sent_requests
                    (run (opik_notebook metrics output reference) net).2)
      = Some (Some (metric_results
                      (Opik.evaluate metrics output reference initial).1))).
Proof.
  split.
  - intros metrics tc net Hnone. rewrite sent_deepeval_notebook.
    destruct (DeepEval.evaluate metrics tc initial) as [st [e|]]; [done|].
    cbv zeta. cbn [fst].
    pose proof (proj1 (received_scores_notebook_posts (metric_results st)
                  "Your-Authorization-Token-Here" "user_id")) as Hpost.
    destruct (net _); cbn [head fmap option_fmap option_map];
      rewrite Hpost; reflexivity.
  - intros metrics output reference net Hnone. rewrite sent_opik_notebook.
    destruct (Opik.evaluate metrics output reference initial) as [st [e|]]; [done|].
    cbv zeta. cbn [fst].
    pose proof (proj2 (received_scores_notebook_posts (metric_results st)
                  "Your-Authorization-Token-Here" "C473421_T181751")) as Hpost.
    destruct (net _) as [resp|]; [destruct (decoded resp)|];
      cbn [head fmap option_fmap option_map];
      rewrite Hpost; reflexivity.
Qed.

Lemma notebook_posts_what_the_loop_built_witness :
  received_scores
    <$> head (sent_requests
                (run (deepeval_notebook Sample.deepeval_metrics Sample.tc)
                     (responding Sample.ok_response)).2)
  = Some (Some (metric_results
                  (DeepEval.evaluate Sample.deepeval_metrics Sample.tc initial).1)).
Proof.
  apply (proj1 (@notebook_posts_what_the_loop_built Sample.number _
                  sample_number_laws)).
  reflexivity.
Defined.



(** ** Distinct class names *)

Section distinct_names.
Context {num metric : Type} (name : metric → string).
Implicit Types (mxs : list (metric * num)).

Lemma collected_lookup_distinct mxs k x :
  NoDup (name <$> mxs.*1) →
  metric_results (collected name mxs initial) !! k = Some x
  ↔ ∃ m, (m, x) ∈ mxs ∧ name m = k.
Proof.
  intros Hnd. cbn [collected metric_results initial].
  set (named := (λ mx : metric * num, (name mx.1, mx.2)) <$> mxs).
  assert (Hkeys : named.*1 = name <$> mxs.*1)
    by (unfold named; by rewrite <- !list_fmap_compose).
  rewrite write_all_lookup, lookup_empty.
  assert (members_get k named = Some x ↔ (k, x) ∈ named) as Hget.
  { split; [apply members_get_elem|].
    apply members_get_NoDup. by rewrite Hkeys. }
  transitivity ((k, x) ∈ named).
  - rewrite <- Hget. by destruct (members_get k named).
  - unfold named. rewrite list_elem_of_fmap. split.
    + intros ([m y] & [= -> ->] & Hin). by exists m.
    + intros (m & Hin & <-). by exists (m, x).
Qed.

Lemma collected_perm mxs mxs' :
  NoDup (name <$> mxs.*1) → mxs' ≡ₚ mxs →
  metric_results (collected name mxs' initial)
  = metric_results (collected name mxs initial).
Proof.
  intros Hnd Hperm. apply map_eq. intros k. apply option_eq. intros x.
  rewrite !collected_lookup_distinct; [|done|by rewrite Hperm].
  by setoid_rewrite Hperm.
Qed.

Lemma collected_size_distinct mxs :
  NoDup (name <$> mxs.*1) →
  size (metric_results (collected name mxs initial)) = length mxs.
Proof.
  intros Hnd. rewrite <- size_dom, collected_dom, size_list_to_set by done.
  by rewrite !length_fmap.
Qed.
End distinct_names.

(** X14.  When every scoring call returns and the scored metrics have
    distinct class names, the dict has one entry for each of them, holding
    its score, and it is the same dict in whatever order the metrics are
    given. *)
Theorem collectors_distinct_names {num : Type} :
  (∀ tc (mxs : list (DeepEval.metric num * num)),
      deepeval_returns tc mxs →
      NoDup (DeepEval.class_name <$> mxs.*1) →
      let d := metric_results (DeepEval.evaluate mxs.*1 tc initial).1 in
      size d = length mxs
      ∧ (∀ m x, (m, x) ∈ mxs → d !! DeepEval.class_name m = Some x)
      ∧ (∀ mxs', mxs' ≡ₚ mxs →
           metric_results (DeepEval.evaluate mxs'.*1 tc initial).1 = d))
  ∧ (∀ output reference metrics (mxs : list (Opik.metric num * num)),
      mxs.*1 = List.filter Opik.scored metrics →
      opik_returns output reference mxs →
      NoDup (Opik.class_name <$> mxs.*1) →
      let d := metric_results (Opik.evaluate metrics output reference initial).1 in
      size d = length mxs
      ∧ (∀ m x, (m, x) ∈ mxs → d !! Opik.class_name m = Some x)
      ∧ (∀ metrics' mxs',
           mxs'.*1 = List.filter Opik.scored metrics' → mxs' ≡ₚ mxs →
           metric_results (Opik.evaluate metrics' output reference initial).1 = d)).
Proof.
  split.
  - intros tc mxs Hret Hnd. cbv zeta.
    rewrite (deepeval_evaluate_returns tc mxs) by done. cbn [fst].
    split; [by apply collected_size_distinct|]. split.
    + intros m x Hin. apply collected_lookup_distinct; [done|]. by exists m.
    + intros mxs' Hperm.
      rewrite (deepeval_evaluate_returns tc mxs') by
        (unfold deepeval_returns in *; by rewrite Hperm).
      by apply collected_perm.
  - intros output reference metrics mxs Hfil Hret Hnd. cbv zeta.
    rewrite (opik_evaluate_returns output reference metrics mxs) by done.
    cbn [fst]. split; [by apply collected_size_distinct|]. split.
    + intros m x Hin. apply collected_lookup_distinct; [done|]. by exists m.
    + intros metrics' mxs' Hfil' Hperm.
      rewrite (opik_evaluate_returns output reference metrics' mxs');
        [|done|unfold opik_returns in *; by rewrite Hperm].
      by apply collected_perm.
Qed.

Lemma collectors_distinct_names_witness :
  size (metric_results
          (DeepEval.evaluate (take 2 Sample.deepeval_run).*1 Sample.tc initial).1)
  = 2%nat
  ∧ size (metric_results
            (Opik.evaluate (take 3 Sample.opik_metrics) "output" "reference"
               initial).1)
    = 2%nat.
Proof.
  split.
  - apply (proj1 collectors_distinct_names Sample.tc (take 2 Sample.deepeval_run));
      [repeat constructor|].
    cbn. repeat constructor; rewrite ?list_elem_of_In; cbn; intuition discriminate.
  - apply (proj2 collectors_distinct_names "output" "reference"
             (take 3 Sample.opik_metrics) (take 2 Sample.opik_run));
      [reflexivity|repeat constructor|].
    cbn. repeat constructor; rewrite ?list_elem_of_In; cbn; intuition discriminate.
Defined.
